(** * A shallow embedding of the NOAA hourly-weather pipeline (katas4.py)

    The pipeline reads a CSV file in chunks, cleans every chunk
    ([transform]), upserts it into an SQLite table ([load]) and finally
    writes a summary ([generate_report]).

    Modelling conventions.
    - Python exceptions are values of [exn]; code that may raise returns a
      [result].
    - A Python float is a [pyfloat]: an exact rational, an infinity or NaN.
      Binary64 rounding and overflow are not modelled: arithmetic on finite
      values is exact and every finite value is kept in lowest terms, so that
      equal numbers are equal terms.
    - A pandas DataFrame is a list of column labels and a list of rows, each
      row carrying one cell per column.
    - The SQLite table is the list of its rows in rowid order.
    - Library behaviour the source merely calls ([pd.to_datetime], SQLite's
      text rendering of a REAL, tabulate's table layout) is taken as a
      section variable. *)

From Stdlib Require Import List String Ascii ZArith QArith Bool Lia Arith.
From Stdlib Require Import Qround Qabs Qreduction DecimalString OrderedTypeEx.
Import ListNotations.

Local Open Scope Z_scope.

(** ** Exceptions *)

Inductive exn : Type :=
| ValueError
| IndexError
| KeyError (labels : list string)
| TypeError
| AttributeError
| ZeroDivisionError
| OperationalError
| DatabaseError.

Inductive result (A : Type) : Type :=
| Ok (a : A)
| Raise (e : exn).

Arguments Ok {A} a.
Arguments Raise {A} e.

Definition bind {A B : Type} (m : result A) (k : A -> result B) : result B :=
  match m with
  | Ok a => k a
  | Raise e => Raise e
  end.

Notation "x <- m ;; k" := (bind m (fun x => k))
  (at level 61, m at next level, right associativity).

Definition exn_eqb (a b : exn) : bool :=
  match a, b with
  | ValueError, ValueError => true
  | IndexError, IndexError => true
  | KeyError x, KeyError y =>
      if list_eq_dec string_dec x y then true else false
  | TypeError, TypeError => true
  | AttributeError, AttributeError => true
  | ZeroDivisionError, ZeroDivisionError => true
  | OperationalError, OperationalError => true
  | DatabaseError, DatabaseError => true
  | _, _ => false
  end.

(** [try: m except (e1, ..., en): handler]: only the listed exception classes
    are caught ([KeyError] is matched whatever its label). *)
Definition same_class (a b : exn) : bool :=
  match a, b with
  | KeyError _, KeyError _ => true
  | _, _ => exn_eqb a b
  end.

Definition try_except {A : Type} (m : result A) (caught : list exn)
    (handler : result A) : result A :=
  match m with
  | Ok a => Ok a
  | Raise e => if existsb (same_class e) caught then handler else Raise e
  end.

(** ** Python floats *)

Inductive pyfloat : Type :=
| Fin (q : Q)
| PosInf
| NegInf
| NaN.

Definition fin (q : Q) : pyfloat := Fin (Qred q).

Definition float_of_Z (z : Z) : pyfloat := fin (inject_Z z).

Definition Qsign (q : Q) : Z := Z.sgn (Qnum q).

Definition inf_of_sign (s : Z) : pyfloat :=
  if s =? 0 then NaN else if 0 <? s then PosInf else NegInf.

Definition fsign (a : pyfloat) : Z :=
  match a with
  | Fin q => Qsign q
  | PosInf => 1
  | NegInf => -1
  | NaN => 0
  end.

Definition fadd (a b : pyfloat) : pyfloat :=
  match a, b with
  | NaN, _ | _, NaN => NaN
  | Fin x, Fin y => fin (x + y)
  | PosInf, NegInf | NegInf, PosInf => NaN
  | PosInf, _ | _, PosInf => PosInf
  | NegInf, _ | _, NegInf => NegInf
  end.

Definition fmul (a b : pyfloat) : pyfloat :=
  match a, b with
  | NaN, _ | _, NaN => NaN
  | Fin x, Fin y => fin (x * y)
  | _, _ => inf_of_sign (fsign a * fsign b)
  end.

(** IEEE division, for divisors that are not zero. *)
Definition fdiv (a b : pyfloat) : pyfloat :=
  match a, b with
  | NaN, _ | _, NaN => NaN
  | Fin x, Fin y => fin (x / y)
  | Fin _, _ => Fin 0
  | _, Fin _ => inf_of_sign (fsign a * fsign b)
  | _, _ => NaN
  end.

Definition fis_zero (a : pyfloat) : bool :=
  match a with
  | Fin q => Qnum q =? 0
  | _ => false
  end.

(** Python's [/]: a zero divisor raises. *)
Definition truediv (a b : pyfloat) : result pyfloat :=
  if fis_zero b then Raise ZeroDivisionError else Ok (fdiv a b).

(** [a != b] on floats: NaN differs from everything. *)
Definition float_ne (a b : pyfloat) : bool :=
  match a, b with
  | Fin x, Fin y => negb (Qeq_bool x y)
  | PosInf, PosInf => false
  | NegInf, NegInf => false
  | _, _ => true
  end.

Definition fis_nan (a : pyfloat) : bool :=
  match a with
  | NaN => true
  | _ => false
  end.

(** ** Python values held in a DataFrame cell *)

Inductive pyval : Type :=
| PyNone
| PyBool (b : bool)
| PyInt (z : Z)
| PyFloat (f : pyfloat)
| PyStr (s : string).

(** [pd.isna] on a scalar. *)
Definition isna (v : pyval) : bool :=
  match v with
  | PyNone => true
  | PyFloat f => fis_nan f
  | _ => false
  end.

Definition isinstance_str (v : pyval) : bool :=
  match v with
  | PyStr _ => true
  | _ => false
  end.

(** [x is not None] *)
Definition is_not_None (v : pyval) : bool :=
  match v with
  | PyNone => false
  | _ => true
  end.

(** ** Strings *)

Definition comma : ascii := ","%char.
Definition underscore : ascii := "_"%char.
Definition nul : ascii := "000"%char.

Definition is_digit (c : ascii) : bool :=
  let n := nat_of_ascii c in (48 <=? n)%nat && (n <=? 57)%nat.

Definition digit_value (c : ascii) : Z := Z.of_nat (nat_of_ascii c) - 48.

(** The characters [float] strips at both ends: the space, and tab to
    carriage return. *)
Definition is_space (c : ascii) : bool :=
  let n := nat_of_ascii c in
  (n =? 32)%nat || ((9 <=? n)%nat && (n <=? 13)%nat).

Definition lower (c : ascii) : ascii :=
  let n := nat_of_ascii c in
  if (65 <=? n)%nat && (n <=? 90)%nat then ascii_of_nat (n + 32) else c.

Fixpoint dropwhile {A : Type} (p : A -> bool) (l : list A) : list A :=
  match l with
  | [] => []
  | x :: l' => if p x then dropwhile p l' else l
  end.

(** [span p l]: the longest prefix satisfying [p], and the rest. *)
Fixpoint span {A : Type} (p : A -> bool) (l : list A) : list A * list A :=
  match l with
  | [] => ([], [])
  | x :: l' =>
      if p x then let (a, b) := span p l' in (x :: a, b) else ([], l)
  end.

Definition strip (l : list ascii) : list ascii :=
  rev (dropwhile is_space (rev (dropwhile is_space l))).

(** [s.split(sep)] for a one-character separator: never the empty list. *)
Fixpoint split (sep : ascii) (s : string) : list string :=
  match s with
  | EmptyString => [EmptyString]
  | String c s' =>
      if Ascii.eqb c sep then EmptyString :: split sep s'
      else match split sep s' with
           | [] => [String c EmptyString]
           | h :: t => String c h :: t
           end
  end.

(** [l[0]] *)
Definition getitem0 {A : Type} (l : list A) : result A :=
  match l with
  | [] => Raise IndexError
  | x :: _ => Ok x
  end.

(** [val.split(',')]: only a [str] has the method. *)
Definition method_split (val : pyval) : result (list string) :=
  match val with
  | PyStr s => Ok (split comma s)
  | _ => Raise AttributeError
  end.

(** ** [float(str)]

    CPython removes the underscores that sit between two digits, strips the
    blanks at both ends, and then requires the whole remainder to be a
    decimal literal ([sign] digits [. digits] [e [sign] digits], with a digit
    before or after the point) or one of [inf], [infinity], [nan] in any
    letter case. A string is read here as its bytes: the blanks and digits
    outside ASCII that CPython also accepts are not recognised. *)

(** Underscores: each one must follow a digit and be followed by a digit
    ([prev] is the previous character, NUL at the start). *)
Fixpoint strip_underscores (prev : ascii) (l : list ascii)
    : option (list ascii) :=
  match l with
  | [] => if Ascii.eqb prev underscore then None else Some []
  | c :: l' =>
      if Ascii.eqb c underscore then
        if is_digit prev then strip_underscores c l' else None
      else if Ascii.eqb prev underscore && negb (is_digit c) then None
      else option_map (cons c) (strip_underscores c l')
  end.

(** The number a run of decimal digits denotes, read left to right. *)
Definition digits_value (ds : list ascii) : Z :=
  fold_left (fun acc c => 10 * acc + digit_value c) ds 0.

(** An optional sign: [true] for a minus. *)
Definition split_sign (l : list ascii) : bool * list ascii :=
  match l with
  | c :: r =>
      if Ascii.eqb c "-"%char then (true, r)
      else if Ascii.eqb c "+"%char then (false, r)
      else (false, l)
  | [] => (false, l)
  end.

Definition pow10 (e : Z) : Q :=
  if 0 <=? e then inject_Z (10 ^ e) else Qinv (inject_Z (10 ^ (- e))).

Definition apply_sign (neg : bool) (z : Z) : Z := if neg then - z else z.

(** The exponent part: empty, or [e]/[E], an optional sign and at least one
    digit, up to the end of the text. *)
Definition parse_exponent (l : list ascii) : option Z :=
  match l with
  | [] => Some 0
  | c :: t =>
      if Ascii.eqb (lower c) "e"%char then
        let (eneg, t1) := split_sign t in
        let (ed, t2) := span is_digit t1 in
        match ed, t2 with
        | _ :: _, [] => Some (apply_sign eneg (digits_value ed))
        | _, _ => None
        end
      else None
  end.

Definition parse_decimal (l : list ascii) : option pyfloat :=
  let (neg, r) := split_sign l in
  let (ip, r1) := span is_digit r in
  let (fp, r2) :=
    match r1 with
    | c :: t => if Ascii.eqb c "."%char then span is_digit t else ([], r1)
    | [] => ([], r1)
    end in
  match ip ++ fp with
  | [] => None
  | m =>
      match parse_exponent r2 with
      | None => None
      | Some e =>
          Some (fin (inject_Z (apply_sign neg (digits_value m))
                     * pow10 (e - Z.of_nat (List.length fp))))
      end
  end.

Definition parse_inf_or_nan (l : list ascii) : option pyfloat :=
  let (neg, r) := split_sign l in
  let w := string_of_list_ascii (map lower r) in
  if String.eqb w "inf" || String.eqb w "infinity" then
    Some (if neg then NegInf else PosInf)
  else if String.eqb w "nan" then Some NaN
  else None.

Definition float_of_str (s : string) : result pyfloat :=
  match strip_underscores nul (list_ascii_of_string s) with
  | None => Raise ValueError
  | Some u =>
      let t := strip u in
      match parse_decimal t with
      | Some f => Ok f
      | None =>
          match parse_inf_or_nan t with
          | Some f => Ok f
          | None => Raise ValueError
          end
      end
  end.

(** ** [parse_noaa_val] (katas4.py, lines 32-38) *)

Definition parse_noaa_val_body (val : pyval) : result pyval :=
  if isna val || negb (isinstance_str val) then Ok PyNone
  else
    parts <- method_split val ;;
    part <- getitem0 parts ;;
    numeric_part <- float_of_str part ;;
    if float_ne numeric_part (float_of_Z 9999) then
      r <- truediv numeric_part (float_of_Z 10) ;; Ok (PyFloat r)
    else Ok PyNone.

Definition parse_noaa_val (val : pyval) : result pyval :=
  try_except (parse_noaa_val_body val) [ValueError; IndexError] (Ok PyNone).

(** ** DataFrames *)

Definition Series : Type := list pyval.

Record DataFrame : Type := mkDF {
  columns : list string;
  rows : list (list pyval)
}.

Fixpoint index_of (c : string) (cols : list string) : option nat :=
  match cols with
  | [] => None
  | x :: cols' =>
      if String.eqb c x then Some O else option_map S (index_of c cols')
  end.

(** [c in df.columns] *)
Definition has_column (c : string) (df : DataFrame) : bool :=
  existsb (String.eqb c) (columns df).

Definition cell (i : nat) (r : list pyval) : pyval := nth i r PyNone.

Fixpoint set_nth {A : Type} (i : nat) (v : A) (l : list A) : list A :=
  match l, i with
  | [], _ => []
  | _ :: l', O => v :: l'
  | x :: l', S i' => x :: set_nth i' v l'
  end.

(** The labels of [labels] that are not columns of [df]. *)
Definition missing_labels (labels : list string) (df : DataFrame)
    : list string :=
  filter (fun c => negb (has_column c df)) labels.

(** The positions of [labels], when all of them are columns. *)
Definition positions (labels : list string) (df : DataFrame)
    : result (list nat) :=
  match missing_labels labels df with
  | [] =>
      Ok (map (fun c => match index_of c (columns df) with
                        | Some i => i
                        | None => O
                        end) labels)
  | missing => Raise (KeyError missing)
  end.

(** [df[labels]] for a list of labels. *)
Definition select_columns (labels : list string) (df : DataFrame)
    : result DataFrame :=
  idxs <- positions labels df ;;
  Ok (mkDF labels (map (fun r => map (fun i => cell i r) idxs) (rows df))).

(** [df[c]] *)
Definition getitem (df : DataFrame) (c : string) : result Series :=
  match index_of c (columns df) with
  | Some i => Ok (map (cell i) (rows df))
  | None => Raise (KeyError [c])
  end.

(** [df[c] = s], for a series holding one value per row: an existing column
    is overwritten in place, a new one is appended. *)
Definition setitem (df : DataFrame) (c : string) (s : Series)
    : result DataFrame :=
  if negb (List.length s =? List.length (rows df))%nat then Raise ValueError
  else
    Ok match index_of c (columns df) with
       | Some i =>
           mkDF (columns df)
                (map (fun p => set_nth i (snd p) (fst p)) (combine (rows df) s))
       | None =>
           mkDF (columns df ++ [c])
                (map (fun p => fst p ++ [snd p]) (combine (rows df) s))
       end.

(** [df.dropna(subset=labels)]: a row goes when any of the listed cells is
    missing. *)
Definition dropna (labels : list string) (df : DataFrame)
    : result DataFrame :=
  idxs <- positions labels df ;;
  Ok (mkDF (columns df)
           (filter (fun r => forallb (fun i => negb (isna (cell i r))) idxs)
                   (rows df))).

Definition mem_string (c : string) (l : list string) : bool :=
  existsb (String.eqb c) l.

(** [df.drop(columns=labels)] *)
Definition drop_columns (labels : list string) (df : DataFrame)
    : result DataFrame :=
  match missing_labels labels df with
  | [] =>
      Ok (mkDF (filter (fun c => negb (mem_string c labels)) (columns df))
               (map (fun r =>
                       map snd
                           (filter (fun p => negb (mem_string (fst p) labels))
                                   (combine (columns df) r)))
                    (rows df)))
  | missing => Raise (KeyError missing)
  end.

Fixpoint mapM {A B : Type} (f : A -> result B) (l : list A)
    : result (list B) :=
  match l with
  | [] => Ok []
  | x :: l' => y <- f x ;; ys <- mapM f l' ;; Ok (y :: ys)
  end.

Definition is_float (v : pyval) : bool :=
  match v with
  | PyFloat _ => true
  | _ => false
  end.

Definition is_None (v : pyval) : bool := negb (is_not_None v).

Definition None_to_nan (v : pyval) : pyval :=
  match v with
  | PyNone => PyFloat NaN
  | _ => v
  end.

(** The type inference pandas runs on the values a mapped function returned:
    floats mixed with [None] become a float column, in which [None] is NaN;
    a column of [None] only stays as it is. *)
Definition maybe_convert_objects (s : Series) : Series :=
  if forallb (fun v => is_float v || is_None v) s && existsb is_float s
  then map None_to_nan s
  else s.

(** [s.apply(f)] *)
Definition series_apply (f : pyval -> result pyval) (s : Series)
    : result Series :=
  r <- mapM f s ;; Ok (maybe_convert_objects r).

(** ** Timestamps *)

Record Timestamp : Type := mkTimestamp {
  year : nat; month : nat; day : nat;
  hour : nat; minute : nat; second : nat
}.

Definition string_of_nat (n : nat) : string :=
  NilZero.string_of_uint (Nat.to_uint n).

Fixpoint zeros (n : nat) : string :=
  match n with
  | O => EmptyString
  | S n' => String "0" (zeros n')
  end.

Definition zero_pad (width n : nat) : string :=
  let s := string_of_nat n in
  (zeros (width - String.length s) ++ s)%string.

(** [t.strftime('%Y-%m-%d %H:%M:%S')] *)
Definition strftime (t : Timestamp) : string :=
  (zero_pad 4 (year t) ++ "-" ++ zero_pad 2 (month t) ++ "-"
   ++ zero_pad 2 (day t) ++ " " ++ zero_pad 2 (hour t) ++ ":"
   ++ zero_pad 2 (minute t) ++ ":" ++ zero_pad 2 (second t))%string.

(** [.dt.strftime(...)] on a datetime series: NaT gives NaN. *)
Definition dt_strftime (s : list (option Timestamp)) : Series :=
  map (fun d => match d with
                | Some t => PyStr (strftime t)
                | None => PyFloat NaN
                end) s.

(** The Fahrenheit lambda of line 44: [(x * 9/5) + 32 if x is not None else
    None]. *)
Definition number_of (x : pyval) : result pyfloat :=
  match x with
  | PyFloat f => Ok f
  | PyInt z => Ok (float_of_Z z)
  | PyBool b => Ok (float_of_Z (if b then 1 else 0))
  | _ => Raise TypeError
  end.

Definition fahrenheit (x : pyval) : result pyval :=
  if is_not_None x then
    f <- number_of x ;;
    q <- truediv (fmul f (float_of_Z 9)) (float_of_Z 5) ;;
    Ok (PyFloat (fadd q (float_of_Z 32)))
  else Ok PyNone.

(** ** SQLite values and the [hourly_weather] table *)

Inductive sqlval : Type :=
| SNull
| SInt (z : Z)
| SReal (f : pyfloat)
| SText (s : string).

(** One row of [hourly_weather]: three TEXT columns and three REAL columns,
    [None] standing for NULL. *)
Record weather_row : Type := mkRow {
  STATION : option string;
  DATE : option string;
  NAME : option string;
  temp_c : option pyfloat;
  dew_point_c : option pyfloat;
  temp_f : option pyfloat
}.

(** A table as [to_sql] creates it: column names and rows. *)
Record staging_table : Type := mkStaging {
  staging_columns : list string;
  staging_rows : list (list sqlval)
}.

Record database : Type := mkDB {
  hourly_weather : option (list weather_row);
  staging : option staging_table
}.

(** What [to_sql] writes for a cell: missing values become NULL. *)
Definition to_sql_value (v : pyval) : sqlval :=
  match v with
  | PyNone => SNull
  | PyBool b => SInt (if b then 1 else 0)
  | PyInt z => SInt z
  | PyFloat f => if fis_nan f then SNull else SReal f
  | PyStr s => SText s
  end.

Definition string_of_Z (z : Z) : string :=
  NilZero.string_of_int (Z.to_int z).

(** Both key columns equal and not NULL: the PRIMARY KEY conflict. *)
Definition text_eq (a b : option string) : bool :=
  match a, b with
  | Some x, Some y => String.eqb x y
  | _, _ => false
  end.

Definition same_key (a b : weather_row) : bool :=
  text_eq (STATION a) (STATION b) && text_eq (DATE a) (DATE b).

(** [INSERT OR REPLACE] of one row: the rows in conflict go, the new row is
    appended. *)
Definition insert_or_replace (t : list weather_row) (r : weather_row)
    : list weather_row :=
  filter (fun x => negb (same_key x r)) t ++ [r].

Definition sql_nth (i : nat) (r : list sqlval) : sqlval := nth i r SNull.

(** SQLite's [AVG]: NULLs are skipped, no value at all gives NULL, and so
    does a sum that is not a number. *)
Definition avg_step (acc : pyfloat * nat) (v : option pyfloat)
    : pyfloat * nat :=
  match v with
  | Some f => (fadd (fst acc) f, S (snd acc))
  | None => acc
  end.

Definition sql_avg (vs : list (option pyfloat)) : option pyfloat :=
  let (sum, cnt) := fold_left avg_step vs (Fin 0, O) in
  match cnt with
  | O => None
  | S _ =>
      let a := fdiv sum (float_of_Z (Z.of_nat cnt)) in
      if fis_nan a then None else Some a
  end.

(** NULL sorts first, text in byte order. *)
Definition name_leb (a b : option string) : bool :=
  match a, b with
  | None, _ => true
  | Some _, None => false
  | Some x, Some y => String.leb x y
  end.

Definition name_eqb (a b : option string) : bool :=
  match a, b with
  | None, None => true
  | Some x, Some y => String.eqb x y
  | _, _ => false
  end.

(** [GROUP BY NAME] with [COUNT( * )]: one group per name, in sorted order. *)
Fixpoint count_into (n : option string) (g : list (option string * nat))
    : list (option string * nat) :=
  match g with
  | [] => [(n, 1%nat)]
  | (m, k) :: g' =>
      if name_eqb n m then (m, S k) :: g'
      else if name_leb n m then (n, 1%nat) :: g
      else (m, k) :: count_into n g'
  end.

Definition group_count (names : list (option string))
    : list (option string * nat) :=
  fold_left (fun g n => count_into n g) names [].

(** ** Formatting *)

(** Round to the nearest integer, ties to the even one. *)
Definition round_half_even (q : Q) : Z :=
  let f := Qfloor q in
  let r := (q - inject_Z f)%Q in
  match (r ?= (1 # 2))%Q with
  | Lt => f
  | Gt => f + 1
  | Eq => if Z.even f then f else f + 1
  end.

(** [format(x, '.2f')] *)
Definition format_2f (x : pyfloat) : string :=
  match x with
  | Fin q =>
      let n := Z.to_nat (round_half_even (Qabs q * 100)%Q) in
      let sign := if Qnum q <? 0 then "-"%string else ""%string in
      (sign ++ string_of_nat (n / 100) ++ "." ++ zero_pad 2 (n mod 100))%string
  | PosInf => "inf"
  | NegInf => "-inf"
  | NaN => "nan"
  end.

(** What the report file holds and how the call ended; no file at all when
    the queries fail. *)
Record report_run : Type := mkRun {
  report_file : option string;
  outcome : result unit
}.

(** ** The pipeline *)

Section Pipeline.

(** [pd.to_datetime(s, errors='coerce')] at position [i] of the series [s];
    [None] is NaT. The whole series is an argument because pandas may
    settle the date format from the data. *)
Variable parse_datetime : Series -> nat -> option Timestamp.

(** SQLite's rendering of a REAL stored in a TEXT column. *)
Variable real_to_text : pyfloat -> string.

(** The table layout of [DataFrame.to_markdown(index=False)] for the
    [(NAME, count)] rows. *)
Variable to_markdown : list (option string * nat) -> string.

Definition to_datetime (s : Series) : list (option Timestamp) :=
  map (parse_datetime s) (seq 0 (List.length s)).

(** katas4.py, lines 18-46. *)
Definition transform (chunk : DataFrame) : result DataFrame :=
  let cols := ["STATION"; "DATE"; "NAME"; "TMP"; "DEW"]%string in
  let cols := filter (fun c => has_column c chunk) cols in
  df <- select_columns cols chunk ;;
  df <- dropna ["STATION"; "DATE"]%string df ;;
  dates <- getitem df "DATE" ;;
  df <- setitem df "DATE" (dt_strftime (to_datetime dates)) ;;
  df <- dropna ["DATE"%string] df ;;
  tmp <- getitem df "TMP" ;;
  tc <- series_apply parse_noaa_val tmp ;;
  df <- setitem df "temp_c" tc ;;
  dew <- getitem df "DEW" ;;
  dc <- series_apply parse_noaa_val dew ;;
  df <- setitem df "dew_point_c" dc ;;
  tc' <- getitem df "temp_c" ;;
  tf <- series_apply fahrenheit tc' ;;
  df <- setitem df "temp_f" tf ;;
  drop_columns ["TMP"; "DEW"]%string df.

(** Column affinity on insertion. TEXT: numbers are rendered as text. *)
Definition text_affinity (v : sqlval) : option string :=
  match v with
  | SNull => None
  | SInt z => Some (string_of_Z z)
  | SReal f => Some (real_to_text f)
  | SText s => Some s
  end.

(** REAL: integers become floats. [transform] never puts text in the three
    REAL columns; the model stores NULL for it. *)
Definition real_affinity (v : sqlval) : option pyfloat :=
  match v with
  | SNull => None
  | SInt z => Some (float_of_Z z)
  | SReal f => Some f
  | SText _ => None
  end.

(** A six-column staging row as a row of [hourly_weather]. *)
Definition stored_row (r : list sqlval) : weather_row :=
  mkRow (text_affinity (sql_nth 0 r)) (text_affinity (sql_nth 1 r))
        (text_affinity (sql_nth 2 r)) (real_affinity (sql_nth 3 r))
        (real_affinity (sql_nth 4 r)) (real_affinity (sql_nth 5 r)).

(** [CREATE TABLE IF NOT EXISTS hourly_weather (...)] *)
Definition create_table_if_not_exists (db : database) : database :=
  match hourly_weather db with
  | Some _ => db
  | None => mkDB (Some []) (staging db)
  end.

(** [df.to_sql('staging', conn, if_exists='replace', index=False)] *)
Definition to_sql_staging (df : DataFrame) (db : database) : database :=
  mkDB (hourly_weather db)
       (Some (mkStaging (columns df) (map (map to_sql_value) (rows df)))).

(** [INSERT OR REPLACE INTO hourly_weather SELECT * FROM staging] *)
Definition insert_or_replace_from_staging (db : database)
    : result database :=
  match hourly_weather db, staging db with
  | Some t, Some s =>
      if (List.length (staging_columns s) =? 6)%nat then
        Ok (mkDB (Some (fold_left insert_or_replace
                                  (map stored_row (staging_rows s)) t))
                 (staging db))
      else Raise OperationalError
  | _, _ => Raise OperationalError
  end.

(** [DROP TABLE staging] *)
Definition drop_staging (db : database) : result database :=
  match staging db with
  | Some _ => Ok (mkDB (hourly_weather db) None)
  | None => Raise OperationalError
  end.

(** katas4.py, lines 48-67. *)
Definition load (df : DataFrame) (db : database) : result database :=
  let db := create_table_if_not_exists db in
  let db := to_sql_staging df db in
  db <- insert_or_replace_from_staging db ;;
  drop_staging db.

(** The aggregate line of the report. *)
Definition aggregate_line (total : nat) (avg_c : option pyfloat)
    : result string :=
  match avg_c with
  | Some a =>
      Ok ("Processed " ++ string_of_nat total ++ " records. Average Temp: "
          ++ format_2f a ++ "°C" ++ String "010" (String "010" ""))%string
  | None => Raise TypeError
  end.

Definition report_header : string :=
  ("# Data Pipeline Report" ++ String "010" "")%string.

(** katas4.py, lines 69-79. *)
Definition generate_report (db : database) : report_run :=
  match hourly_weather db with
  | None => mkRun None (Raise DatabaseError)
  | Some t =>
      let total := List.length t in
      let avg_c := sql_avg (map temp_c t) in
      let stations := group_count (map NAME t) in
      match aggregate_line total avg_c with
      | Raise e => mkRun (Some report_header) (Raise e)
      | Ok line =>
          mkRun (Some (report_header ++ line
                       ++ ("## Station Summary" ++ String "010" "")
                       ++ to_markdown stations)%string)
                (Ok tt)
      end
  end.

(** One iteration of the main loop: [load(transform(chunk), DB_FILE)]. *)
Definition pipeline_step (db : database) (chunk : DataFrame)
    : result database :=
  df <- transform chunk ;; load df db.

(** katas4.py, lines 82-85, on the chunks [extract] yields: the first
    exception ends the run, before any report is written. *)
Fixpoint run_chunks (chunks : list DataFrame) (db : database)
    : result database :=
  match chunks with
  | [] => Ok db
  | chunk :: rest => db' <- pipeline_step db chunk ;; run_chunks rest db'
  end.

Definition main (chunks : list DataFrame) (db : database)
    : result report_run :=
  db' <- run_chunks chunks db ;; Ok (generate_report db').

End Pipeline.

(** ** Instances of the library functions, for the examples

    ISO-8601 timestamps ([YYYY-MM-DDTHH:MM:SS], or with a blank for the [T]),
    each value read on its own. *)

Definition two_digits (a b : ascii) : option nat :=
  if is_digit a && is_digit b
  then Some (Z.to_nat (digits_value [a; b])) else None.

Definition iso_datetime (v : pyval) : option Timestamp :=
  match v with
  | PyStr s =>
      match list_ascii_of_string s with
      | [y1; y2; y3; y4; s1; m1; m2; s2; d1; d2; sep; h1; h2; s3; n1; n2; s4;
         c1; c2] =>
          match two_digits y1 y2, two_digits y3 y4, two_digits m1 m2,
                two_digits d1 d2, two_digits h1 h2, two_digits n1 n2,
                two_digits c1 c2 with
          | Some ya, Some yb, Some mo, Some d, Some h, Some mi, Some sec =>
              if Ascii.eqb s1 "-" && Ascii.eqb s2 "-"
                 && (Ascii.eqb sep "T" || Ascii.eqb sep " ")
                 && Ascii.eqb s3 ":" && Ascii.eqb s4 ":"
                 && (1 <=? mo)%nat && (mo <=? 12)%nat
                 && (1 <=? d)%nat && (d <=? 31)%nat
                 && (h <? 24)%nat && (mi <? 60)%nat && (sec <? 60)%nat
              then Some (mkTimestamp (100 * ya + yb) mo d h mi sec)
              else None
          | _, _, _, _, _, _, _ => None
          end
      | _ => None
      end
  | _ => None
  end.

Definition iso_parse_datetime (s : Series) (i : nat) : option Timestamp :=
  iso_datetime (cell i s).

Definition plain_real_to_text (f : pyfloat) : string := format_2f f.

Definition plain_to_markdown (g : list (option string * nat)) : string :=
  String.concat (String "010" "")
    (map (fun p =>
            ("| " ++ match fst p with Some n => n | None => "" end
             ++ " | " ++ string_of_nat (snd p) ++ " |")%string) g).

Definition empty_db : database := mkDB None None.

(** ** The encoded value as the specification words it *)

(** The text before the first comma. *)
Fixpoint before_comma (s : string) : string :=
  match s with
  | EmptyString => EmptyString
  | String c s' =>
      if Ascii.eqb c comma then EmptyString else String c (before_comma s')
  end.

Inductive sign : Type := NoSign | Plus | Minus.

Definition sign_chars (sg : sign) : list ascii :=
  match sg with
  | NoSign => []
  | Plus => ["+"%char]
  | Minus => ["-"%char]
  end.

Definition signed (sg : sign) (n : Z) : Z :=
  match sg with
  | Minus => - n
  | _ => n
  end.

(** The number a digit string denotes, by positional weight. *)
Fixpoint decimal_value (ds : list ascii) : Z :=
  match ds with
  | [] => 0
  | c :: ds' =>
      digit_value c * 10 ^ Z.of_nat (List.length ds') + decimal_value ds'
  end.

(** ["<signed integer>,<quality code>"] *)
Definition noaa_text (sg : sign) (ds : list ascii) (quality : string)
    : string :=
  (string_of_list_ascii (sign_chars sg ++ ds) ++ String comma quality)%string.

(** ** The cleaned batch, row by row

    What [transform] computes, told for the rows of the chunk rather than
    for its columns. *)

(** The cell of row [r] under the label [c]. *)
Definition field (c : string) (df : DataFrame) (r : list pyval) : pyval :=
  match index_of c (columns df) with
  | Some i => cell i r
  | None => PyNone
  end.

(** The value a call returned, for calls that do not raise. *)
Definition value_of (m : result pyval) : pyval :=
  match m with
  | Ok r => r
  | Raise _ => PyNone
  end.

Definition none_or_float (v : pyval) : bool := is_float v || is_None v.

Section CleanRows.

Variable parse_datetime : Series -> nat -> option Timestamp.
Variable chunk : DataFrame.

(** Neither key is missing. *)
Definition keys_present (r : list pyval) : bool :=
  negb (isna (field "STATION" chunk r))
  && negb (isna (field "DATE" chunk r)).

Definition keyed_rows : list (list pyval) :=
  filter keys_present (rows chunk).

(** The dates of the keyed rows, parsed together and formatted; NaN where
    the date did not parse. *)
Definition normalised_dates : Series :=
  dt_strftime
    (to_datetime parse_datetime (map (field "DATE" chunk) keyed_rows)).

(** The keyed rows whose date parsed, each with its formatted date. *)
Definition dated_rows : list (list pyval * pyval) :=
  filter (fun p => negb (isna (snd p)))
         (combine keyed_rows normalised_dates).

Definition temp_c_column : Series :=
  maybe_convert_objects
    (map (fun p => value_of (parse_noaa_val (field "TMP" chunk (fst p))))
         dated_rows).

Definition dew_point_c_column : Series :=
  maybe_convert_objects
    (map (fun p => value_of (parse_noaa_val (field "DEW" chunk (fst p))))
         dated_rows).

Definition temp_f_column : Series :=
  maybe_convert_objects
    (map (fun v => value_of (fahrenheit v)) temp_c_column).

(** One output row: the station, the formatted date, the name when the
    chunk has the column, and the three derived values. *)
Definition clean_row (with_name : bool)
    (q : list pyval * pyval * pyval * pyval * pyval) : list pyval :=
  let p := fst (fst (fst q)) in
  field "STATION" chunk (fst p) :: snd p
  :: (if with_name then [field "NAME" chunk (fst p)] else [])
  ++ [snd (fst (fst q)); snd (fst q); snd q].

Definition clean_rows (with_name : bool) : list (list pyval) :=
  map (clean_row with_name)
      (combine (combine (combine dated_rows temp_c_column)
                        dew_point_c_column)
               temp_f_column).

Definition clean_columns (with_name : bool) : list string :=
  ("STATION" :: "DATE" :: (if with_name then ["NAME"] else [])
   ++ ["temp_c"; "dew_point_c"; "temp_f"])%string.

End CleanRows.

(** The columns [transform] cannot do without. *)
Definition required_columns (chunk : DataFrame) : bool :=
  has_column "STATION" chunk && has_column "DATE" chunk
  && has_column "TMP" chunk && has_column "DEW" chunk.

(** The exception [transform] raises on a chunk lacking one of them. *)
Definition transform_error (chunk : DataFrame) : exn :=
  match missing_labels ["STATION"; "DATE"]%string chunk with
  | [] => if has_column "TMP" chunk then KeyError ["DEW"%string]
          else KeyError ["TMP"%string]
  | missing => KeyError missing
  end.


(** ** The store, row by row *)

(** The rows of [hourly_weather]; none when the table does not exist. *)
Definition table (db : database) : list weather_row :=
  match hourly_weather db with
  | Some t => t
  | None => []
  end.

Definition upsert_all (rs t : list weather_row) : list weather_row :=
  fold_left insert_or_replace rs t.

(** The row has the key [(s, d)]. *)
Definition key_is (s d : string) (w : weather_row) : bool :=
  text_eq (STATION w) (Some s) && text_eq (DATE w) (Some d).

(** The last row of a batch under the key [(s, d)]. *)
Definition last_with_key (s d : string) (rs : list weather_row)
    : option weather_row :=
  find (key_is s d) (rev rs).

(** The row is in conflict with no row of the batch. *)
Definition untouched (rs : list weather_row) (x : weather_row) : bool :=
  forallb (fun r => negb (same_key x r)) rs.

(** The values of [temp_c] that are present. *)
Definition present (vs : list (option pyfloat)) : list pyfloat :=
  flat_map (fun v => match v with Some f => [f] | None => [] end) vs.

Definition fsum (fs : list pyfloat) : pyfloat := fold_left fadd fs (Fin 0).

(** The arithmetic mean of a list of floats. *)
Definition mean (fs : list pyfloat) : pyfloat :=
  fdiv (fsum fs) (float_of_Z (Z.of_nat (List.length fs))).

(** The number of rows carrying the name [n]. *)
Definition count_name (n : option string) (names : list (option string))
    : nat :=
  List.length (filter (name_eqb n) names).

(** The count a [(NAME, count)] table gives for [n]. *)
Definition count_in (n : option string) (g : list (option string * nat))
    : nat :=
  match find (fun p => name_eqb n (fst p)) g with
  | Some p => snd p
  | None => O
  end.

(** Every name of [g] is strictly after [n]. *)
Definition all_after (n : option string) (g : list (option string * nat))
    : Prop :=
  Forall (fun p => name_leb n (fst p) = true /\ n <> fst p) g.

(** The names of a [(NAME, count)] table go strictly upwards. *)
Fixpoint sorted_groups (g : list (option string * nat)) : Prop :=
  match g with
  | [] => True
  | p :: g' => all_after (fst p) g' /\ sorted_groups g'
  end.

Section Staged.

Variable real_to_text : pyfloat -> string.

(** The rows of a DataFrame as [load] stores them. *)
Definition staged (df : DataFrame) : list weather_row :=
  map (stored_row real_to_text) (map (map to_sql_value) (rows df)).

(** A cell as a TEXT column holds it. *)
Definition key_text (v : pyval) : option string :=
  text_affinity real_to_text (to_sql_value v).

End Staged.

(** ** Sample data for the examples *)

Local Open Scope string_scope.

(** A chunk of five rows: one without STATION, one whose DATE does not
    parse, three that are kept. *)
Definition sample_chunk : DataFrame :=
  mkDF ["STATION"; "DATE"; "EXTRA"; "NAME"; "TMP"; "DEW"]%string
       [[PyStr "001"; PyStr "2023-01-01T00:00:00"; PyInt 3; PyStr "A";
         PyStr "+0150,5"; PyStr "+0050,5"];
        [PyStr "001"; PyStr "2023-01-01T01:00:00"; PyInt 3; PyStr "A";
         PyStr "9999,9"; PyStr "+0050,5"];
        [PyFloat NaN; PyStr "2023-01-01T01:00:00"; PyInt 3; PyStr "A";
         PyStr "+0100,1"; PyStr "+0050,5"];
        [PyInt 7; PyStr "2023-01-01 01:00"; PyInt 3; PyStr "A";
         PyStr "+0100,1"; PyStr "+0050,5"];
        [PyInt 7; PyStr "2023-01-01 02:00:00"; PyInt 3; PyStr "B";
         PyStr "+0250,1"; PyFloat NaN]]%string.

(** What [transform] makes of it, and the store after loading that. *)
Definition sample_batch : DataFrame :=
  mkDF ["STATION"; "DATE"; "NAME"; "temp_c"; "dew_point_c"; "temp_f"]%string
       [[PyStr "001"; PyStr "2023-01-01 00:00:00"; PyStr "A";
         PyFloat (Fin 15); PyFloat (Fin 5); PyFloat (Fin 59)];
        [PyStr "001"; PyStr "2023-01-01 01:00:00"; PyStr "A";
         PyFloat NaN; PyFloat (Fin 5); PyFloat NaN];
        [PyInt 7; PyStr "2023-01-01 02:00:00"; PyStr "B";
         PyFloat (Fin 25); PyFloat NaN; PyFloat (Fin 77)]]%string.

Definition sample_store : database :=
  mkDB (Some [mkRow (Some "001") (Some "2023-01-01 00:00:00") (Some "A")
                    (Some (Fin 15)) (Some (Fin 5)) (Some (Fin 59));
              mkRow (Some "001") (Some "2023-01-01 01:00:00") (Some "A")
                    None (Some (Fin 5)) None;
              mkRow (Some "7") (Some "2023-01-01 02:00:00") (Some "B")
                    (Some (Fin 25)) None (Some (Fin 77))]%string)
       None.

(** A batch with a new reading for a key [sample_store] already holds, and
    the store after loading it. *)
Definition second_batch : DataFrame :=
  mkDF ["STATION"; "DATE"; "NAME"; "temp_c"; "dew_point_c"; "temp_f"]%string
       [[PyStr "001"; PyStr "2023-01-01 00:00:00"; PyStr "A";
         PyFloat (Fin 20); PyFloat (Fin 5); PyFloat (Fin 68)]]%string.

Definition second_row : weather_row :=
  mkRow (Some "001") (Some "2023-01-01 00:00:00") (Some "A")
        (Some (Fin 20)) (Some (Fin 5)) (Some (Fin 68))%string.

Definition second_store : database :=
  mkDB (Some [mkRow (Some "001") (Some "2023-01-01 01:00:00") (Some "A")
                    None (Some (Fin 5)) None;
              mkRow (Some "7") (Some "2023-01-01 02:00:00") (Some "B")
                    (Some (Fin 25)) None (Some (Fin 77));
              second_row]%string)
       None.


(** A store whose only row has no temperature. *)
Definition untempered_store : database :=
  mkDB (Some [mkRow (Some "001") (Some "2023-01-01 00:00:00") (Some "A")
                    None (Some (Fin 5)) None]%string)
       None.

Local Close Scope string_scope.

(** ** A run, row by row *)

(** No key is held by two rows: the PRIMARY KEY constraint. *)
Definition unique_keys (t : list weather_row) : Prop :=
  forall s d, (List.length (filter (key_is s d) t) <= 1)%nat.

(** The chunk has the five columns a pipeline step needs. *)
Definition loadable (chunk : DataFrame) : bool :=
  required_columns chunk && has_column "NAME" chunk.

(** The labels [transform] looks at. *)
Definition relevant_labels : list string :=
  ["STATION"; "DATE"; "NAME"; "TMP"; "DEW"]%string.

(** The cells of a row under the relevant labels ([None] under a label the
    chunk does not have). *)
Definition relevant_cells (chunk : DataFrame) (r : list pyval)
    : list pyval :=
  map (fun c => field c chunk r) relevant_labels.

(** The elements of [l] at the positions [bs] marks. *)
Definition pick {A : Type} (bs : list bool) (l : list A) : list A :=
  map snd (filter fst (combine bs l)).

Definition total_count (g : list (option string * nat)) : nat :=
  fold_right (fun p acc => (snd p + acc)%nat) O g.

(** What pandas' type inference does to one value of a column. *)
Definition converter (h : pyval -> pyval) : Prop :=
  (forall v, h v = v) \/ (forall v, h v = None_to_nan v).

Section BatchRows.

Variable parse_datetime : Series -> nat -> option Timestamp.
Variable real_to_text : pyfloat -> string.



(** The rows a chunk with all five columns brings to the store. *)
Definition batch_rows (chunk : DataFrame) : list weather_row :=
  staged real_to_text
         (mkDF (clean_columns true) (clean_rows parse_datetime chunk true)).

End BatchRows.

(** ** More sample data *)

Local Open Scope string_scope.

(** The rows of [sample_chunk] under other columns, in another order. *)
Definition shuffled_chunk : DataFrame :=
  mkDF ["DEW"; "TMP"; "SOURCE"; "NAME"; "DATE"; "STATION"]
       [[PyStr "+0050,5"; PyStr "+0150,5"; PyStr "x"; PyStr "A";
         PyStr "2023-01-01T00:00:00"; PyStr "001"];
        [PyStr "+0050,5"; PyStr "9999,9"; PyStr "x"; PyStr "A";
         PyStr "2023-01-01T01:00:00"; PyStr "001"];
        [PyStr "+0050,5"; PyStr "+0100,1"; PyStr "x"; PyStr "A";
         PyStr "2023-01-01T01:00:00"; PyFloat NaN];
        [PyStr "+0050,5"; PyStr "+0100,1"; PyStr "x"; PyStr "A";
         PyStr "2023-01-01 01:00"; PyInt 7];
        [PyFloat NaN; PyStr "+0250,1"; PyStr "x"; PyStr "B";
         PyStr "2023-01-01 02:00:00"; PyInt 7]].



(** A batch whose only row has no station. *)
Definition keyless_batch : DataFrame :=
  mkDF ["STATION"; "DATE"; "NAME"; "temp_c"; "dew_point_c"; "temp_f"]
       [[PyNone; PyStr "2023-01-01 00:00:00"; PyStr "A";
         PyFloat (Fin 15); PyFloat (Fin 5); PyFloat (Fin 59)]].

Definition keyless_row : weather_row :=
  mkRow None (Some "2023-01-01 00:00:00") (Some "A")
        (Some (Fin 15)) (Some (Fin 5)) (Some (Fin 59)).

(** A batch under a key [second_batch] does not have. *)
Definition third_batch : DataFrame :=
  mkDF ["STATION"; "DATE"; "NAME"; "temp_c"; "dew_point_c"; "temp_f"]
       [[PyStr "002"; PyStr "2023-01-01 00:00:00"; PyStr "C";
         PyFloat (Fin 10); PyFloat (Fin 5); PyFloat (Fin 50)]].

Definition third_row : weather_row :=
  mkRow (Some "002") (Some "2023-01-01 00:00:00") (Some "C")
        (Some (Fin 10)) (Some (Fin 5)) (Some (Fin 50)).


Local Close Scope string_scope.

(** * Facts about the parser *)

Lemma split_before_comma (s : string) :
  exists rest, split comma s = before_comma s :: rest.
Proof.
  induction s as [|c s [rest IH]]; simpl.
  - now exists [].
  - destruct (Ascii.eqb c comma).
    + eauto.
    + rewrite IH. eauto.
Qed.

Lemma list_ascii_of_string_app (a b : string) :
  list_ascii_of_string (a ++ b) =
  list_ascii_of_string a ++ list_ascii_of_string b.
Proof.
  induction a as [|c a IH]; simpl; [reflexivity | now rewrite IH].
Qed.

Lemma before_comma_app (l : list ascii) (q : string) :
  forallb (fun c => negb (Ascii.eqb c comma)) l = true ->
  before_comma (string_of_list_ascii l ++ String comma q) =
  string_of_list_ascii l.
Proof.
  induction l as [|c l IH]; simpl; intros H.
  - reflexivity.
  - apply andb_prop in H as [Hc Hl].
    destruct (Ascii.eqb c comma); [discriminate|].
    now rewrite IH.
Qed.

Lemma digit_not_special (c : ascii) :
  is_digit c = true ->
  Ascii.eqb c comma = false /\ Ascii.eqb c underscore = false
  /\ is_space c = false /\ Ascii.eqb c "-" = false
  /\ Ascii.eqb c "+" = false.
Proof.
  destruct c as [[] [] [] [] [] [] [] []]; vm_compute; intros H;
    try discriminate H; repeat split.
Qed.

Lemma sign_chars_not_special (sg : sign) (c : ascii) :
  In c (sign_chars sg) ->
  Ascii.eqb c comma = false /\ Ascii.eqb c underscore = false
  /\ is_space c = false /\ is_digit c = false.
Proof.
  destruct sg; simpl; intros H; try contradiction;
    destruct H as [<- | []]; repeat split.
Qed.

Lemma dropwhile_head {A : Type} (p : A -> bool) (x : A) (l : list A) :
  p x = false -> dropwhile p (x :: l) = x :: l.
Proof. simpl. now intros ->. Qed.

Lemma strip_literal (sg : sign) (ds : list ascii) :
  ds <> [] -> forallb is_digit ds = true ->
  strip (sign_chars sg ++ ds) = sign_chars sg ++ ds.
Proof.
  intros Hne Hd. unfold strip.
  assert (Hfirst : dropwhile is_space (sign_chars sg ++ ds)
                   = sign_chars sg ++ ds).
  { destruct sg; simpl; try reflexivity.
    destruct ds as [|d ds]; [contradiction|].
    simpl in Hd. apply andb_prop in Hd as [Hd _].
    apply digit_not_special in Hd as (_ & _ & Hs & _).
    now apply dropwhile_head. }
  rewrite Hfirst.
  destruct (exists_last Hne) as (ds' & d & ->).
  rewrite forallb_app in Hd. apply andb_prop in Hd as [_ Hd].
  simpl in Hd. rewrite andb_true_r in Hd.
  apply digit_not_special in Hd as (_ & _ & Hs & _).
  assert (Hrev : rev (sign_chars sg ++ ds' ++ [d])
                 = d :: rev (sign_chars sg ++ ds'))
    by (rewrite app_assoc, rev_app_distr; reflexivity).
  rewrite Hrev, dropwhile_head by exact Hs.
  rewrite <- Hrev. apply rev_involutive.
Qed.

Lemma strip_underscores_none_present (l : list ascii) (prev : ascii) :
  Ascii.eqb prev underscore = false ->
  forallb (fun c => negb (Ascii.eqb c underscore)) l = true ->
  strip_underscores prev l = Some l.
Proof.
  revert prev. induction l as [|c l IH]; simpl; intros prev Hp H.
  - now rewrite Hp.
  - apply andb_prop in H as [Hc Hl].
    apply negb_true_iff in Hc. rewrite Hc, Hp. simpl.
    now rewrite IH.
Qed.

Lemma span_all {A : Type} (p : A -> bool) (l : list A) :
  forallb p l = true -> span p l = (l, []).
Proof.
  induction l as [|x l IH]; simpl; intros H; [reflexivity|].
  apply andb_prop in H as [Hx Hl]. now rewrite Hx, IH.
Qed.

Lemma fold_digits (ds : list ascii) (acc : Z) :
  fold_left (fun a c => 10 * a + digit_value c) ds acc =
  acc * 10 ^ Z.of_nat (List.length ds) + decimal_value ds.
Proof.
  revert acc. induction ds as [|c ds IH]; intros acc.
  - simpl. lia.
  - cbn [fold_left decimal_value List.length]. rewrite IH.
    rewrite Nat2Z.inj_succ, Z.pow_succ_r by lia. ring.
Qed.

Lemma digits_value_decimal (ds : list ascii) :
  digits_value ds = decimal_value ds.
Proof. unfold digits_value. rewrite fold_digits. lia. Qed.

Lemma split_sign_literal (sg : sign) (ds : list ascii) :
  ds <> [] -> forallb is_digit ds = true ->
  split_sign (sign_chars sg ++ ds) =
  (match sg with Minus => true | _ => false end, ds).
Proof.
  intros Hne Hd. destruct sg; try reflexivity.
  destruct ds as [|d ds]; [contradiction|].
  simpl in Hd. apply andb_prop in Hd as [Hd _].
  apply digit_not_special in Hd as (_ & _ & _ & Hm & Hp).
  simpl. now rewrite Hm, Hp.
Qed.

Lemma fin_eq (p q : Q) : (p == q)%Q -> fin p = fin q.
Proof. intros H. unfold fin. f_equal. now apply Qred_complete. Qed.

(** [float] reads a signed run of digits as the integer it denotes. *)
Lemma float_of_str_literal (sg : sign) (ds : list ascii) :
  ds <> [] -> forallb is_digit ds = true ->
  float_of_str (string_of_list_ascii (sign_chars sg ++ ds)) =
  Ok (float_of_Z (signed sg (decimal_value ds))).
Proof.
  intros Hne Hd. unfold float_of_str.
  rewrite list_ascii_of_string_of_list_ascii.
  rewrite strip_underscores_none_present; [|reflexivity|].
  - cbv zeta. rewrite strip_literal by assumption.
    unfold parse_decimal. rewrite split_sign_literal by assumption.
    rewrite span_all by assumption. cbn [app]. rewrite app_nil_r.
    destruct ds as [|d ds]; [contradiction|].
    cbn [parse_exponent List.length Z.of_nat Z.sub Z.opp].
    rewrite digits_value_decimal. f_equal. unfold float_of_Z.
    apply fin_eq. unfold pow10. simpl Z.leb. cbv iota.
    change (inject_Z (10 ^ 0)) with 1%Q. rewrite Qmult_1_r.
    destruct sg; reflexivity.
  - rewrite forallb_app. apply andb_true_intro. split.
    + apply forallb_forall. intros c Hc.
      apply sign_chars_not_special in Hc as (_ & -> & _). reflexivity.
    + apply forallb_forall. intros c Hc.
      rewrite forallb_forall in Hd.
      apply Hd, digit_not_special in Hc as (_ & -> & _). reflexivity.
Qed.

Lemma float_of_str_raises (s : string) (e : exn) :
  float_of_str s = Raise e -> e = ValueError.
Proof.
  unfold float_of_str.
  destruct (strip_underscores _ _) as [u|]; [|congruence].
  cbv zeta. destruct (parse_decimal (strip u)); [discriminate|].
  destruct (parse_inf_or_nan (strip u)); [discriminate | congruence].
Qed.

(** What the parser does with text: the part before the first comma goes
    through [float]; a rejected text and the value 9999 give [None]. *)
Lemma parse_noaa_val_str (s : string) :
  parse_noaa_val (PyStr s) =
  match float_of_str (before_comma s) with
  | Ok f =>
      if float_ne f (float_of_Z 9999)
      then Ok (PyFloat (fdiv f (float_of_Z 10)))
      else Ok PyNone
  | Raise _ => Ok PyNone
  end.
Proof.
  unfold parse_noaa_val, parse_noaa_val_body. cbn [isna isinstance_str
    negb orb method_split bind].
  destruct (split_before_comma s) as [rest ->]. cbn [getitem0 bind].
  destruct (float_of_str (before_comma s)) as [f|e] eqn:E; cbn [bind].
  - destruct (float_ne f (float_of_Z 9999)); reflexivity.
  - apply float_of_str_raises in E. subst e. reflexivity.
Qed.

Lemma parse_noaa_val_not_str (val : pyval) :
  isinstance_str val = false -> parse_noaa_val val = Ok PyNone.
Proof.
  intros H. unfold parse_noaa_val, parse_noaa_val_body. rewrite H.
  rewrite orb_true_r. reflexivity.
Qed.

Lemma parse_noaa_val_total (val : pyval) :
  exists r, parse_noaa_val val = Ok r.
Proof.
  destruct val as [| b | z | f | s];
    try (exists PyNone; now apply parse_noaa_val_not_str).
  rewrite parse_noaa_val_str.
  destruct (float_of_str (before_comma s)) as [f|e]; [|eauto].
  destruct (float_ne f (float_of_Z 9999)); eauto.
Qed.

Lemma before_comma_noaa_text (sg : sign) (ds : list ascii) (q : string) :
  forallb is_digit ds = true ->
  before_comma (noaa_text sg ds q) = string_of_list_ascii (sign_chars sg ++ ds).
Proof.
  intros Hd. unfold noaa_text. apply before_comma_app.
  rewrite forallb_app. apply andb_true_intro. split.
  - apply forallb_forall. intros c Hc.
    apply sign_chars_not_special in Hc as (-> & _). reflexivity.
  - apply forallb_forall. intros c Hc. rewrite forallb_forall in Hd.
    apply Hd, digit_not_special in Hc as (-> & _). reflexivity.
Qed.

Lemma float_ne_of_Z (a b : Z) :
  float_ne (float_of_Z a) (float_of_Z b) = negb (a =? b).
Proof.
  unfold float_of_Z, fin, float_ne. f_equal.
  destruct (Z.eqb_spec a b) as [->|Hne].
  - apply Qeq_bool_iff. reflexivity.
  - destruct (Qeq_bool _ _) eqn:E; [|reflexivity].
    apply Qeq_bool_iff in E. rewrite !Qred_correct in E.
    apply (proj1 (inject_Z_injective a b)) in E. contradiction.
Qed.

Lemma parse_noaa_val_literal (sg : sign) (ds : list ascii) (q : string) :
  ds <> [] -> forallb is_digit ds = true ->
  parse_noaa_val (PyStr (noaa_text sg ds q)) =
  if signed sg (decimal_value ds) =? 9999 then Ok PyNone
  else Ok (PyFloat (fin (inject_Z (signed sg (decimal_value ds)) / 10))).
Proof.
  intros Hne Hd.
  rewrite parse_noaa_val_str, before_comma_noaa_text by assumption.
  rewrite float_of_str_literal by assumption.
  rewrite float_ne_of_Z.
  destruct (signed sg (decimal_value ds) =? 9999); cbn [negb]; [reflexivity|].
  do 2 f_equal. unfold float_of_Z, fin, fdiv, fin. f_equal.
  apply Qred_complete. rewrite !Qred_correct. reflexivity.
Qed.

(** ** Claims about [parse_noaa_val] *)

(** C1, as the code has it: the parser never raises; it returns [None] for a
    value that is not text, for a text whose part before the first comma
    [float] rejects, and for an encoded value whose integer part is 9999.
    (A text without a comma is not rejected: its whole content is read as the
    number.) *)
Theorem parse_noaa_val_absent (val : pyval) :
  (exists r, parse_noaa_val val = Ok r) /\
  (isinstance_str val = false -> parse_noaa_val val = Ok PyNone) /\
  (forall s, val = PyStr s ->
     float_of_str (before_comma s) = Raise ValueError ->
     parse_noaa_val val = Ok PyNone) /\
  (forall sg ds q, val = PyStr (noaa_text sg ds q) ->
     ds <> [] -> forallb is_digit ds = true ->
     signed sg (decimal_value ds) = 9999 ->
     parse_noaa_val val = Ok PyNone).
Proof.
  split; [apply parse_noaa_val_total|].
  split; [apply parse_noaa_val_not_str|].
  split.
  - intros s -> H. rewrite parse_noaa_val_str, H. reflexivity.
  - intros sg ds q -> Hne Hd Hv.
    rewrite parse_noaa_val_literal, Hv by assumption. reflexivity.
Qed.

(** C1 on a sentinel, on a text that is not a number and on a value that is
    not text. *)
Lemma parse_noaa_val_absent_witness :
  parse_noaa_val (PyStr "+9999,9") = Ok PyNone
  /\ parse_noaa_val (PyStr "abc,1") = Ok PyNone
  /\ parse_noaa_val (PyInt 150) = Ok PyNone.
Proof.
  split; [|split].
  - apply (proj2 (proj2 (proj2 (parse_noaa_val_absent (PyStr "+9999,9"))))
             Plus ["9"; "9"; "9"; "9"]%char "9"%string);
      [reflexivity | discriminate | reflexivity | reflexivity].
  - apply (proj1 (proj2 (proj2 (parse_noaa_val_absent (PyStr "abc,1"))))
             "abc,1"%string); reflexivity.
  - apply (proj1 (proj2 (parse_noaa_val_absent (PyInt 150)))). reflexivity.
Defined.

(** C1 as stated fails: a text without any comma is not a two-part comma
    string, yet it parses to a value. *)
Lemma parse_noaa_val_without_comma :
  List.length (split comma "150") <> 2%nat
  /\ parse_noaa_val (PyStr "150") = Ok (PyFloat (Fin 15))
  /\ isna (PyFloat (Fin 15)) = false.
Proof.
  split; [|split]; [|reflexivity|reflexivity].
  simpl. discriminate.
Qed.



(** * Facts about DataFrames *)

Lemma index_of_has_column (c : string) (cols : list string) :
  existsb (String.eqb c) cols = true -> exists i, index_of c cols = Some i.
Proof.
  induction cols as [|x cols IH]; simpl; [discriminate|].
  destruct (String.eqb c x); simpl; [eauto|].
  intros H. destruct (IH H) as [i ->]. simpl. eauto.
Qed.

Lemma filter_map_swap {A B : Type} (p : B -> bool) (f : A -> B)
    (l : list A) :
  filter p (map f l) = map f (filter (fun x => p (f x)) l).
Proof.
  induction l as [|x l IH]; simpl; [reflexivity|].
  destruct (p (f x)); simpl; now rewrite IH.
Qed.

Lemma combine_map_l {A B C : Type} (f : A -> B) (l : list A) (s : list C) :
  combine (map f l) s = map (fun p => (f (fst p), snd p)) (combine l s).
Proof.
  revert s. induction l as [|x l IH]; intros [|y s]; simpl;
    try reflexivity. now rewrite IH.
Qed.

Lemma missing_labels_filter (labels : list string) (df : DataFrame) :
  missing_labels (filter (fun c => has_column c df) labels) df = [].
Proof.
  unfold missing_labels. induction labels as [|c labels IH]; simpl;
    [reflexivity|].
  destruct (has_column c df) eqn:E; simpl; [|exact IH].
  now rewrite E.
Qed.

(** Selecting the labels that are present never fails; each row keeps the
    cells under those labels. *)
Lemma select_columns_present (labels : list string) (df : DataFrame) :
  select_columns (filter (fun c => has_column c df) labels) df =
  Ok (mkDF (filter (fun c => has_column c df) labels)
           (map (fun r =>
                   map (fun c => field c df r)
                       (filter (fun c => has_column c df) labels))
                (rows df))).
Proof.
  unfold select_columns, positions. rewrite missing_labels_filter.
  cbn [bind]. do 2 f_equal. apply map_ext. intros r.
  rewrite map_map. apply map_ext_in. intros c Hc.
  apply filter_In in Hc as [_ Hc]. unfold field.
  destruct (index_of_has_column c (columns df) Hc) as [i ->]. reflexivity.
Qed.


Lemma mapM_total (f : pyval -> result pyval) (l : list pyval) :
  (forall x, In x l -> exists r, f x = Ok r) ->
  mapM f l = Ok (map (fun x => value_of (f x)) l).
Proof.
  induction l as [|x l IH]; simpl; intros H; [reflexivity|].
  destruct (H x (or_introl eq_refl)) as [r ->]. cbn [bind value_of].
  rewrite IH by (intros y Hy; apply H; now right). reflexivity.
Qed.


Lemma dropna_mk (labels cols : list string) (rs : list (list pyval))
    (idxs : list nat) :
  positions labels (mkDF cols []) = Ok idxs ->
  dropna labels (mkDF cols rs) =
  Ok (mkDF cols
           (filter (fun r => forallb (fun i => negb (isna (cell i r))) idxs)
                   rs)).
Proof.
  unfold dropna. intros H.
  change (positions labels (mkDF cols rs))
    with (positions labels (mkDF cols [])).
  now rewrite H.
Qed.

Lemma dropna_missing (labels cols : list string) (rs : list (list pyval))
    (e : exn) :
  positions labels (mkDF cols []) = Raise e ->
  dropna labels (mkDF cols rs) = Raise e.
Proof.
  unfold dropna. intros H.
  change (positions labels (mkDF cols rs))
    with (positions labels (mkDF cols [])).
  now rewrite H.
Qed.

Lemma getitem_mk (cols : list string) (rs : list (list pyval)) (c : string)
    (i : nat) :
  index_of c cols = Some i ->
  getitem (mkDF cols rs) c = Ok (map (cell i) rs).
Proof. unfold getitem. cbn [columns rows]. now intros ->. Qed.

Lemma getitem_missing (cols : list string) (rs : list (list pyval))
    (c : string) :
  index_of c cols = None ->
  getitem (mkDF cols rs) c = Raise (KeyError [c]).
Proof. unfold getitem. cbn [columns rows]. now intros ->. Qed.

Lemma setitem_overwrite (cols : list string) (rs : list (list pyval))
    (c : string) (s : Series) (i : nat) :
  index_of c cols = Some i ->
  List.length s = List.length rs ->
  setitem (mkDF cols rs) c s =
  Ok (mkDF cols (map (fun p => set_nth i (snd p) (fst p)) (combine rs s))).
Proof.
  unfold setitem. cbn [columns rows]. intros -> ->.
  now rewrite Nat.eqb_refl.
Qed.

Lemma setitem_append (cols : list string) (rs : list (list pyval))
    (c : string) (s : Series) :
  index_of c cols = None ->
  List.length s = List.length rs ->
  setitem (mkDF cols rs) c s =
  Ok (mkDF (cols ++ [c]) (map (fun p => fst p ++ [snd p]) (combine rs s))).
Proof.
  unfold setitem. cbn [columns rows]. intros -> ->.
  now rewrite Nat.eqb_refl.
Qed.

Lemma drop_columns_mk (labels cols : list string) (rs : list (list pyval)) :
  missing_labels labels (mkDF cols []) = [] ->
  drop_columns labels (mkDF cols rs) =
  Ok (mkDF (filter (fun c => negb (mem_string c labels)) cols)
           (map (fun r =>
                   map snd
                       (filter (fun p => negb (mem_string (fst p) labels))
                               (combine cols r)))
                rs)).
Proof.
  unfold drop_columns. intros H.
  change (missing_labels labels (mkDF cols rs))
    with (missing_labels labels (mkDF cols [])).
  now rewrite H.
Qed.

Lemma length_maybe_convert_objects (s : Series) :
  List.length (maybe_convert_objects s) = List.length s.
Proof.
  unfold maybe_convert_objects.
  destruct (_ && _); [apply length_map | reflexivity].
Qed.

Lemma series_apply_total (f : pyval -> result pyval) (s : Series) :
  (forall x, In x s -> exists r, f x = Ok r) ->
  series_apply f s =
  Ok (maybe_convert_objects (map (fun x => value_of (f x)) s)).
Proof.
  intros H. unfold series_apply. now rewrite mapM_total.
Qed.


Lemma parse_noaa_val_none_or_float (v : pyval) :
  none_or_float (value_of (parse_noaa_val v)) = true.
Proof.
  destruct v as [| b | z | f | s];
    try (rewrite parse_noaa_val_not_str by reflexivity; reflexivity).
  rewrite parse_noaa_val_str.
  destruct (float_of_str (before_comma s)) as [f|e]; [|reflexivity].
  destruct (float_ne f (float_of_Z 9999)); reflexivity.
Qed.

Lemma maybe_convert_objects_none_or_float (s : Series) :
  forallb none_or_float s = true ->
  forallb none_or_float (maybe_convert_objects s) = true.
Proof.
  intros H. unfold maybe_convert_objects.
  destruct (_ && _); [|exact H].
  rewrite forallb_forall in *. intros v Hv.
  apply in_map_iff in Hv as (x & <- & Hx). specialize (H x Hx).
  destruct x; try discriminate H; reflexivity.
Qed.

Lemma fahrenheit_total (v : pyval) :
  none_or_float v = true -> exists r, fahrenheit v = Ok r.
Proof.
  destruct v as [| b | z | f | s]; try discriminate; intros _.
  - now exists PyNone.
  - exists (PyFloat (fadd (fdiv (fmul f (float_of_Z 9)) (float_of_Z 5))
                          (float_of_Z 32))).
    reflexivity.
Qed.

(** * Facts about the pipeline *)

Section PipelineFacts.

Variable parse_datetime : Series -> nat -> option Timestamp.
Variable real_to_text : pyfloat -> string.
Variable to_markdown : list (option string * nat) -> string.

Lemma length_to_datetime (s : Series) :
  List.length (to_datetime parse_datetime s) = List.length s.
Proof. unfold to_datetime. now rewrite length_map, length_seq. Qed.

Lemma length_dates (s : Series) :
  List.length (dt_strftime (to_datetime parse_datetime s)) = List.length s.
Proof. unfold dt_strftime. now rewrite length_map, length_to_datetime. Qed.

Lemma map_fst_combine {A B C : Type} (h : A -> C) (l : list A)
    (s : list B) :
  List.length s = List.length l ->
  map (fun p => h (fst p)) (combine l s) = map h l.
Proof.
  revert s. induction l as [|x l IH]; intros [|y s]; simpl;
    try discriminate; [reflexivity|].
  intros H. injection H as H. now rewrite IH.
Qed.

Lemma map_snd_combine {A B : Type} (l : list A) (s : list B) :
  List.length s = List.length l ->
  map (fun p => snd p) (combine l s) = s.
Proof.
  revert s. induction l as [|x l IH]; intros [|y s]; simpl;
    try discriminate; [reflexivity|].
  intros H. injection H as H. now rewrite IH.
Qed.


Ltac lengths :=
  repeat (rewrite length_maybe_convert_objects || rewrite length_dates
          || rewrite length_map || rewrite length_combine
          || rewrite Nat.min_id);
  reflexivity.

Ltac step_dropna :=
  match goal with
  | |- context [dropna ?labels (mkDF ?cols ?rs)] =>
      let r := eval cbv in (positions labels (mkDF cols [])) in
      match r with
      | Ok ?idxs => rewrite (dropna_mk labels cols rs idxs) by reflexivity
      | Raise ?e => rewrite (dropna_missing labels cols rs e) by reflexivity
      end
  end.

Ltac step_getitem :=
  match goal with
  | |- context [getitem (mkDF ?cols ?rs) ?c] =>
      let r := eval cbv in (index_of c cols) in
      match r with
      | Some ?i => rewrite (getitem_mk cols rs c i) by reflexivity
      | None => rewrite (getitem_missing cols rs c) by reflexivity
      end
  end.

Ltac step_setitem :=
  match goal with
  | |- context [setitem (mkDF ?cols ?rs) ?c ?s] =>
      let r := eval cbv in (index_of c cols) in
      match r with
      | Some ?i =>
          rewrite (setitem_overwrite cols rs c s i);
          [|reflexivity|lengths]
      | None =>
          rewrite (setitem_append cols rs c s); [|reflexivity|lengths]
      end
  end.

Ltac step_apply_noaa :=
  rewrite series_apply_total by (intros; apply parse_noaa_val_total).

(** Runs [transform] up to the first exception. *)
Ltac run_until_raise :=
  repeat (first [step_dropna | step_getitem | step_setitem
                | step_apply_noaa];
          cbn [bind app]).

Lemma temp_c_column_none_or_float (chunk : DataFrame) :
  forallb none_or_float (temp_c_column parse_datetime chunk) = true.
Proof.
  apply maybe_convert_objects_none_or_float, forallb_forall.
  intros v Hv. apply in_map_iff in Hv as (p & <- & _).
  apply parse_noaa_val_none_or_float.
Qed.


(** Runs the steps of [transform] that follow the column selection, for a
    chunk holding every required column. *)
Ltac clean_selected pd chunk :=
  step_dropna; cbn [bind];
  rewrite filter_map_swap; cbn [forallb cell nth];
  rewrite (filter_ext _ (keys_present chunk))
    by (intros r; unfold keys_present; now rewrite andb_true_r);
  change (filter (keys_present chunk) (rows chunk)) with (keyed_rows chunk);
  step_getitem; cbn [bind]; rewrite map_map; cbn [cell nth];
  step_setitem; cbn [bind];
  rewrite combine_map_l, map_map; cbn [fst snd set_nth];
  step_dropna; cbn [bind];
  rewrite filter_map_swap; cbn [forallb cell nth];
  rewrite (filter_ext _ (fun p => negb (isna (snd p))))
    by (intros r; now rewrite andb_true_r);
  change (filter _ (combine (keyed_rows chunk) _))
    with (dated_rows pd chunk);
  step_getitem; cbn [bind]; rewrite map_map; cbn [cell nth];
  step_apply_noaa; cbn [bind]; rewrite map_map;
  change (maybe_convert_objects _) with (temp_c_column pd chunk);
  rewrite setitem_append; [|reflexivity|unfold temp_c_column; lengths];
  cbn [bind app]; rewrite combine_map_l, map_map; cbn [fst snd app];
  step_getitem; cbn [bind]; rewrite map_map; cbn [cell nth];
  rewrite (map_fst_combine (fun x => field "DEW" chunk (fst x)))
    by (unfold temp_c_column; lengths);
  step_apply_noaa; cbn [bind]; rewrite map_map;
  change (maybe_convert_objects _) with (dew_point_c_column pd chunk);
  rewrite setitem_append;
    [|reflexivity|unfold dew_point_c_column, temp_c_column; lengths];
  cbn [bind app]; rewrite combine_map_l, map_map; cbn [fst snd app];
  step_getitem; cbn [bind]; rewrite map_map; cbn [cell nth];
  rewrite (map_fst_combine (fun x => snd x));
    [|unfold dew_point_c_column, temp_c_column; lengths];
  rewrite map_snd_combine by (unfold temp_c_column; lengths);
  rewrite series_apply_total;
    [|intros x Hx; apply fahrenheit_total;
      pose proof (temp_c_column_none_or_float chunk) as Hall;
      rewrite forallb_forall in Hall; now apply Hall];
  cbn [bind];
  change (maybe_convert_objects _) with (temp_f_column pd chunk);
  rewrite setitem_append;
    [|reflexivity
     |unfold temp_f_column, dew_point_c_column, temp_c_column; lengths];
  cbn [bind app]; rewrite combine_map_l, map_map; cbn [fst snd app];
  rewrite drop_columns_mk by reflexivity;
  rewrite map_map; reflexivity.

Lemma transform_with_name (chunk : DataFrame) :
  has_column "STATION" chunk = true -> has_column "DATE" chunk = true ->
  has_column "NAME" chunk = true ->
  has_column "TMP" chunk = true -> has_column "DEW" chunk = true ->
  transform parse_datetime chunk =
  Ok (mkDF (clean_columns true) (clean_rows parse_datetime chunk true)).
Proof.
  intros H1 H2 H3 H4 H5.
  unfold transform.
  rewrite select_columns_present.
  cbn [filter]. rewrite H1, H2, H3, H4, H5. cbn [bind map].
  clean_selected parse_datetime chunk.
Qed.

Lemma transform_without_name (chunk : DataFrame) :
  has_column "STATION" chunk = true -> has_column "DATE" chunk = true ->
  has_column "NAME" chunk = false ->
  has_column "TMP" chunk = true -> has_column "DEW" chunk = true ->
  transform parse_datetime chunk =
  Ok (mkDF (clean_columns false) (clean_rows parse_datetime chunk false)).
Proof.
  intros H1 H2 H3 H4 H5.
  unfold transform.
  rewrite select_columns_present.
  cbn [filter]. rewrite H1, H2, H3, H4, H5. cbn [bind map].
  clean_selected parse_datetime chunk.
Qed.

Lemma transform_raises (chunk : DataFrame) :
  required_columns chunk = false ->
  transform parse_datetime chunk = Raise (transform_error chunk).
Proof.
  unfold required_columns, transform_error, missing_labels, transform.
  rewrite select_columns_present. cbn [filter].
  destruct (has_column "STATION" chunk), (has_column "DATE" chunk),
    (has_column "NAME" chunk), (has_column "TMP" chunk),
    (has_column "DEW" chunk); cbn [andb negb bind map];
    try discriminate; intros _; run_until_raise; reflexivity.
Qed.

(** [transform] on any chunk. *)
Lemma transform_spec (chunk : DataFrame) :
  transform parse_datetime chunk =
  if required_columns chunk then
    Ok (mkDF (clean_columns (has_column "NAME" chunk))
             (clean_rows parse_datetime chunk (has_column "NAME" chunk)))
  else Raise (transform_error chunk).
Proof.
  destruct (required_columns chunk) eqn:R;
    [|now apply transform_raises].
  unfold required_columns in R.
  apply andb_prop in R as [R H5]. apply andb_prop in R as [R H4].
  apply andb_prop in R as [H1 H2].
  destruct (has_column "NAME" chunk) eqn:H3.
  - now apply transform_with_name.
  - now apply transform_without_name.
Qed.

(** ** The derived Fahrenheit value *)




Lemma maybe_convert_objects_cases (s : Series) :
  maybe_convert_objects s = s
  \/ maybe_convert_objects s = map None_to_nan s.
Proof. unfold maybe_convert_objects. destruct (_ && _); auto. Qed.


(** What [transform] returned, when it returned. *)
Lemma transform_ok (chunk out : DataFrame) :
  transform parse_datetime chunk = Ok out ->
  required_columns chunk = true
  /\ out = mkDF (clean_columns (has_column "NAME" chunk))
                (clean_rows parse_datetime chunk (has_column "NAME" chunk)).
Proof.
  rewrite transform_spec.
  destruct (required_columns chunk); [|discriminate].
  intros H. injection H as <-. now split.
Qed.


(** C3 fails on the code: a chunk without the DEW column makes [transform]
    raise KeyError. *)
Theorem transform_without_dew_raises :
  transform parse_datetime
    (mkDF ["STATION"; "DATE"; "NAME"; "TMP"]%string
          [[PyStr "001"; PyStr "2023-01-01T00:00:00"; PyStr "A";
            PyStr "+0150,5"]])
  = Raise (KeyError ["DEW"%string]).
Proof. now rewrite transform_raises. Qed.

(** [transform] returns exactly when the chunk has the four columns
    STATION, DATE, TMP and DEW; of the five, only NAME may be absent. *)
Lemma transform_succeeds_iff (chunk : DataFrame) :
  (exists out, transform parse_datetime chunk = Ok out)
  <-> required_columns chunk = true.
Proof.
  rewrite transform_spec. destruct (required_columns chunk); split;
    eauto; try discriminate.
  intros [out H]. discriminate H.
Qed.

(** ** The rows that survive [transform] *)

Lemma map_first_column {A B C D E : Type} (g : A -> E) (a : list A)
    (b : list B) (c : list C) (d : list D) :
  List.length b = List.length a -> List.length c = List.length a ->
  List.length d = List.length a ->
  map (fun q => g (fst (fst (fst q)))) (combine (combine (combine a b) c) d)
  = map g a.
Proof.
  intros Hb Hc Hd.
  rewrite (map_fst_combine (fun q => g (fst (fst q))))
    by (rewrite !length_combine, Hb, Hc, Hd, !Nat.min_id; reflexivity).
  rewrite (map_fst_combine (fun q => g (fst q)))
    by (rewrite !length_combine, Hb, Hc, !Nat.min_id; reflexivity).
  now rewrite map_fst_combine.
Qed.

(** The rows of the cleaned batch are the dated rows, one for one, under
    the same station and the formatted date. *)
Lemma clean_rows_keys (chunk : DataFrame) (with_name : bool) :
  map (fun r => (cell 0 r, cell 1 r))
      (clean_rows parse_datetime chunk with_name)
  = map (fun p => (field "STATION" chunk (fst p), snd p))
        (dated_rows parse_datetime chunk).
Proof.
  unfold clean_rows. rewrite map_map. cbn [clean_row cell nth].
  apply (map_first_column
           (fun p => (field "STATION" chunk (fst p), snd p)));
    unfold temp_f_column, dew_point_c_column, temp_c_column; lengths.
Qed.

(** A dated row is a row of the chunk with both keys, and its date
    parsed. *)
Lemma dated_rows_valid (chunk : DataFrame) (p : list pyval * pyval) :
  In p (dated_rows parse_datetime chunk) ->
  In (fst p) (rows chunk)
  /\ isna (field "STATION" chunk (fst p)) = false
  /\ isna (field "DATE" chunk (fst p)) = false
  /\ exists t, snd p = PyStr (strftime t).
Proof.
  unfold dated_rows. intros H. apply filter_In in H as [H Hd].
  destruct p as [r d]. cbn [fst snd] in *.
  pose proof (in_combine_l _ _ _ _ H) as Hr.
  apply in_combine_r in H.
  unfold keyed_rows in Hr. apply filter_In in Hr as [Hr Hk].
  unfold keys_present in Hk. apply andb_prop in Hk as [Hs Hdt].
  apply negb_true_iff in Hs, Hdt, Hd.
  repeat split; try assumption.
  unfold normalised_dates, dt_strftime in H.
  apply in_map_iff in H as ([t|] & <- & _); [eauto | discriminate].
Qed.

(** ** The store *)

Lemma filter_none {A : Type} (p : A -> bool) (l : list A) :
  (forall x, In x l -> p x = false) -> filter p l = [].
Proof.
  induction l as [|x l IH]; simpl; intros H; [reflexivity|].
  rewrite (H x (or_introl eq_refl)). apply IH. intros y Hy. apply H.
  now right.
Qed.

Lemma filter_filter {A : Type} (p q : A -> bool) (l : list A) :
  filter p (filter q l) = filter (fun x => q x && p x) l.
Proof.
  induction l as [|x l IH]; simpl; [reflexivity|].
  destruct (q x); simpl; [destruct (p x)|]; now rewrite IH.
Qed.

Lemma text_eq_true (a b : option string) :
  text_eq a b = true -> a = b /\ a <> None.
Proof.
  destruct a as [x|], b as [y|]; simpl; try discriminate.
  intros H. apply String.eqb_eq in H. subst. now split.
Qed.

Lemma text_eq_refl (a : option string) :
  a <> None -> text_eq a a = true.
Proof.
  destruct a as [x|]; [|contradiction]. intros _. apply String.eqb_refl.
Qed.

Lemma same_key_true (x y : weather_row) :
  same_key x y = true ->
  STATION x = STATION y /\ DATE x = DATE y
  /\ STATION x <> None /\ DATE x <> None.
Proof.
  unfold same_key. intros H. apply andb_prop in H as [Hs Hd].
  apply text_eq_true in Hs as [? ?], Hd as [? ?]. auto.
Qed.

Lemma key_is_true (s d : string) (w : weather_row) :
  key_is s d w = true <-> STATION w = Some s /\ DATE w = Some d.
Proof.
  unfold key_is. split.
  - intros H. apply andb_prop in H as [Hs Hd].
    apply text_eq_true in Hs as [? _], Hd as [? _]. auto.
  - intros [-> ->]. simpl. now rewrite !String.eqb_refl.
Qed.

Lemma upsert_all_app (rs : list weather_row) (a : weather_row)
    (t : list weather_row) :
  upsert_all (rs ++ [a]) t = insert_or_replace (upsert_all rs t) a.
Proof. unfold upsert_all. now rewrite fold_left_app. Qed.

(** The rows under one key after an upsert: the last row of the batch with
    that key alone, or what the table held when the batch has none. *)
Lemma upsert_all_key (s d : string) (rs t : list weather_row) :
  filter (key_is s d) (upsert_all rs t) =
  match last_with_key s d rs with
  | Some w => [w]
  | None => filter (key_is s d) t
  end.
Proof.
  unfold last_with_key.
  induction rs as [|a rs IH] using rev_ind; [reflexivity|].
  rewrite upsert_all_app, rev_app_distr. cbn [rev app find].
  unfold insert_or_replace. rewrite filter_app. cbn [filter].
  destruct (key_is s d a) eqn:Ka.
  - rewrite filter_none; [reflexivity|].
    intros x Hx. apply filter_In in Hx as [_ Hx].
    destruct (key_is s d x) eqn:Kx; [|reflexivity].
    apply key_is_true in Ka as [Ka1 Ka2], Kx as [Kx1 Kx2].
    unfold same_key in Hx. rewrite Ka1, Ka2, Kx1, Kx2 in Hx.
    simpl in Hx. rewrite !String.eqb_refl in Hx. discriminate.
  - rewrite app_nil_r, <- IH, filter_filter. apply filter_ext.
    intros x. destruct (key_is s d x) eqn:Kx; [|apply andb_false_r].
    rewrite andb_true_r. destruct (same_key x a) eqn:Sk; [|reflexivity].
    apply same_key_true in Sk as (E1 & E2 & _).
    apply key_is_true in Kx as [Kx1 Kx2].
    assert (key_is s d a = true)
      by (apply key_is_true; rewrite <- E1, <- E2; auto).
    congruence.
Qed.

(** An upsert keeps the rows no batch row is in conflict with, in their
    order, and puts the surviving batch rows after them. *)
Lemma upsert_all_split (rs t : list weather_row) :
  upsert_all rs t = filter (untouched rs) t ++ upsert_all rs [].
Proof.
  revert t. induction rs as [|a rs IH]; intros t.
  - cbn. rewrite app_nil_r. induction t as [|x t IHt]; simpl; congruence.
  - unfold upsert_all in *. cbn [fold_left].
    rewrite IH, (IH (insert_or_replace [] a)).
    unfold insert_or_replace. cbn [filter app].
    rewrite filter_app, filter_filter, <- app_assoc. reflexivity.
Qed.

Lemma in_upsert_all (rs t : list weather_row) (w : weather_row) :
  In w (upsert_all rs t) -> In w t \/ In w rs.
Proof.
  revert t. induction rs as [|a rs IH]; intros t; [now left|].
  unfold upsert_all in *. cbn [fold_left]. intros H.
  apply IH in H as [H | H]; [|right; now right].
  unfold insert_or_replace in H. apply in_app_or in H as [H | [<- | []]].
  - apply filter_In in H as [H _]. now left.
  - right. now left.
Qed.

Lemma upsert_all_keeps (rs t : list weather_row) (x : weather_row) :
  In x t ->
  exists w, In w (upsert_all rs t)
            /\ STATION w = STATION x /\ DATE w = DATE x.
Proof.
  revert t x. induction rs as [|a rs IH]; intros t x Hx; [eauto|].
  unfold upsert_all in *. cbn [fold_left].
  destruct (same_key x a) eqn:Sk.
  - apply same_key_true in Sk as (E1 & E2 & _). rewrite E1, E2.
    apply IH. unfold insert_or_replace. apply in_or_app. right. now left.
  - apply IH. unfold insert_or_replace. apply in_or_app. left.
    apply filter_In. split; [exact Hx | now rewrite Sk].
Qed.

Lemma upsert_all_stores (rs t : list weather_row) (r : weather_row) :
  In r rs ->
  exists w, In w (upsert_all rs t)
            /\ STATION w = STATION r /\ DATE w = DATE r.
Proof.
  revert t. induction rs as [|a rs IH]; intros t; [contradiction|].
  intros [<- | H].
  - change (upsert_all (a :: rs) t)
      with (upsert_all rs (insert_or_replace t a)).
    apply upsert_all_keeps. unfold insert_or_replace.
    apply in_or_app. right. now left.
  - now apply IH.
Qed.

(** Upserting a batch whose rows all carry a key twice is upserting it
    once. *)
Lemma upsert_all_twice (rs t : list weather_row) :
  (forall r, In r rs -> same_key r r = true) ->
  upsert_all rs (upsert_all rs t) = upsert_all rs t.
Proof.
  intros Hk.
  rewrite (upsert_all_split rs (upsert_all rs t)), (upsert_all_split rs t).
  rewrite filter_app, filter_filter.
  rewrite (filter_ext _ (untouched rs))
    by (intros x; apply andb_diag).
  rewrite (filter_none (untouched rs) (upsert_all rs [])), app_nil_r;
    [reflexivity|].
  intros x Hx. apply in_upsert_all in Hx as [[] | Hx].
  unfold untouched. apply not_true_iff_false. intros Hall.
  rewrite forallb_forall in Hall. specialize (Hall x Hx).
  rewrite (Hk x Hx) in Hall. discriminate.
Qed.

Lemma load_spec (df : DataFrame) (db : database) :
  load real_to_text df db =
  if (List.length (columns df) =? 6)%nat then
    Ok (mkDB (Some (upsert_all (staged real_to_text df) (table db))) None)
  else Raise OperationalError.
Proof.
  unfold load, create_table_if_not_exists, to_sql_staging,
    insert_or_replace_from_staging, table.
  destruct db as [[t|] st]; cbn;
    destruct (List.length (columns df) =? 6)%nat; reflexivity.
Qed.

Lemma load_ok (df : DataFrame) (db db1 : database) :
  load real_to_text df db = Ok db1 ->
  db1 = mkDB (Some (upsert_all (staged real_to_text df) (table db))) None.
Proof.
  rewrite load_spec. destruct (_ =? _)%nat; [|discriminate].
  now intros H; injection H as <-.
Qed.

Lemma stored_row_keys (r : list pyval) :
  STATION (stored_row real_to_text (map to_sql_value r))
    = key_text real_to_text (cell 0 r)
  /\ DATE (stored_row real_to_text (map to_sql_value r))
    = key_text real_to_text (cell 1 r).
Proof.
  unfold stored_row, key_text, sql_nth, cell. cbn [STATION DATE].
  change SNull with (to_sql_value PyNone). now rewrite !map_nth.
Qed.

Lemma key_text_present (v : pyval) :
  isna v = false -> key_text real_to_text v <> None.
Proof.
  unfold key_text. destruct v as [| b | z | f | s]; simpl;
    try discriminate.
  intros ->. discriminate.
Qed.

(** The stored form of a cleaned row carries the key of a dated row. *)
Lemma staged_clean_row (chunk : DataFrame) (with_name : bool)
    (w : weather_row) :
  In w (staged real_to_text
          (mkDF (clean_columns with_name)
                (clean_rows parse_datetime chunk with_name))) ->
  exists p, In p (dated_rows parse_datetime chunk)
    /\ STATION w = key_text real_to_text (field "STATION" chunk (fst p))
    /\ DATE w = key_text real_to_text (snd p).
Proof.
  unfold staged. cbn [rows]. rewrite map_map. intros H.
  apply in_map_iff in H as (r & <- & Hr).
  destruct (stored_row_keys r) as [-> ->].
  unfold clean_rows in Hr. apply in_map_iff in Hr as (q & <- & Hq).
  exists (fst (fst (fst q))). split; [|split; reflexivity].
  destruct q as [[[p c] d] f].
  now apply in_combine_l, in_combine_l, in_combine_l in Hq.
Qed.

Lemma dated_row_staged (chunk : DataFrame) (with_name : bool)
    (p : list pyval * pyval) :
  In p (dated_rows parse_datetime chunk) ->
  exists w,
    In w (staged real_to_text
            (mkDF (clean_columns with_name)
                  (clean_rows parse_datetime chunk with_name)))
    /\ STATION w = key_text real_to_text (field "STATION" chunk (fst p))
    /\ DATE w = key_text real_to_text (snd p).
Proof.
  intros Hp.
  apply (in_map (fun p => (field "STATION" chunk (fst p), snd p))) in Hp.
  rewrite <- (clean_rows_keys chunk with_name) in Hp.
  apply in_map_iff in Hp as (r & E & Hr). injection E as E0 E1.
  exists (stored_row real_to_text (map to_sql_value r)).
  destruct (stored_row_keys r) as [-> ->]. rewrite E0, E1.
  split; [|split; reflexivity].
  unfold staged. cbn [rows]. rewrite map_map.
  now apply (in_map (fun r => stored_row real_to_text (map to_sql_value r))).
Qed.

Lemma staged_clean_row_keyed (chunk : DataFrame) (with_name : bool)
    (w : weather_row) :
  In w (staged real_to_text
          (mkDF (clean_columns with_name)
                (clean_rows parse_datetime chunk with_name))) ->
  same_key w w = true.
Proof.
  intros H. apply staged_clean_row in H as (p & Hp & Hs & Hd).
  apply dated_rows_valid in Hp as (_ & Ps & _ & t & Pd).
  unfold same_key. rewrite !text_eq_refl; [reflexivity| |].
  - rewrite Hd, Pd. discriminate.
  - rewrite Hs. now apply key_text_present.
Qed.

(** ** Claims about [transform] and [load] together *)

(** C4: the batch [transform] returns holds one row for each row of the
    chunk that has STATION and DATE and whose DATE parses, under the same
    station and the formatted date, and no other row; what one pipeline
    step adds to the store are rows under the keys of those rows, and each
    of them is in the store afterwards. *)
Theorem invalid_rows_dropped (chunk : DataFrame) (db : database) :
  (forall out, transform parse_datetime chunk = Ok out ->
     map (fun r => (field "STATION" out r, field "DATE" out r)) (rows out)
     = map (fun p => (field "STATION" chunk (fst p), snd p))
           (dated_rows parse_datetime chunk))
  /\ (forall p, In p (dated_rows parse_datetime chunk) ->
        In (fst p) (rows chunk)
        /\ isna (field "STATION" chunk (fst p)) = false
        /\ isna (field "DATE" chunk (fst p)) = false
        /\ exists t, snd p = PyStr (strftime t))
  /\ (forall db',
        pipeline_step parse_datetime real_to_text db chunk = Ok db' ->
        (forall w, In w (table db') ->
           In w (table db)
           \/ exists p, In p (dated_rows parse_datetime chunk)
                /\ STATION w
                   = key_text real_to_text (field "STATION" chunk (fst p))
                /\ DATE w = key_text real_to_text (snd p))
        /\ (forall p, In p (dated_rows parse_datetime chunk) ->
              exists w, In w (table db')
                /\ STATION w
                   = key_text real_to_text (field "STATION" chunk (fst p))
                /\ DATE w = key_text real_to_text (snd p))).
Proof.
  split; [|split].
  - intros out H. apply transform_ok in H as [_ ->]. cbn [rows].
    rewrite <- (clean_rows_keys chunk (has_column "NAME" chunk)).
    apply map_ext. intros r.
    destruct (has_column "NAME" chunk); reflexivity.
  - apply dated_rows_valid.
  - intros db' H. unfold pipeline_step in H.
    destruct (transform parse_datetime chunk) as [out|e] eqn:Ht;
      [|discriminate].
    cbn [bind] in H. apply load_ok in H. subst db'. cbn [table hourly_weather].
    apply transform_ok in Ht as [_ ->]. split.
    + intros w Hw. apply in_upsert_all in Hw as [Hw | Hw]; [now left|].
      right. now apply staged_clean_row in Hw.
    + intros p Hp.
      apply (dated_row_staged chunk (has_column "NAME" chunk)) in Hp
        as (r & Hr & E1 & E2).
      destruct (upsert_all_stores _ (table db) r Hr) as (w & Hw & F1 & F2).
      exists w. split; [exact Hw|]. now rewrite F1, F2.
Qed.

(** C6: loading a cleaned batch a second time leaves the store as the first
    load left it. *)
Theorem load_idempotent (chunk batch : DataFrame) (db db1 : database) :
  transform parse_datetime chunk = Ok batch ->
  load real_to_text batch db = Ok db1 ->
  load real_to_text batch db1 = Ok db1.
Proof.
  intros Ht Hl. pose proof (load_ok _ _ _ Hl) as ->.
  rewrite load_spec in *.
  destruct (List.length (columns batch) =? 6)%nat; [|discriminate].
  cbn [table hourly_weather]. do 3 f_equal.
  apply upsert_all_twice. intros r Hr.
  apply transform_ok in Ht as [_ ->].
  now apply staged_clean_row_keyed in Hr.
Qed.

(** C7: after a load, the store holds exactly one row under each key of
    the batch, and it is the batch's last row with that key, whatever the
    store held under the key before. *)
Theorem load_overwrites (df : DataFrame) (db db1 : database)
    (s d : string) (r : weather_row) :
  load real_to_text df db = Ok db1 ->
  In r (staged real_to_text df) -> key_is s d r = true ->
  exists w, last_with_key s d (staged real_to_text df) = Some w
            /\ In w (staged real_to_text df)
            /\ filter (key_is s d) (table db1) = [w].
Proof.
  intros Hl Hr Hk. apply load_ok in Hl. subst db1.
  cbn [table hourly_weather]. rewrite upsert_all_key.
  destruct (last_with_key s d (staged real_to_text df)) as [w|] eqn:E.
  - exists w. repeat split. unfold last_with_key in E.
    apply find_some in E as [E _]. now apply in_rev.
  - unfold last_with_key in E.
    apply in_rev in Hr. rewrite (find_none _ _ E r Hr) in Hk.
    discriminate.
Qed.

(** C8: a load leaves the rows under every key that is not in the batch as
    they were. *)
Theorem load_frame (df : DataFrame) (db db1 : database) (s d : string) :
  load real_to_text df db = Ok db1 ->
  (forall r, In r (staged real_to_text df) -> key_is s d r = false) ->
  filter (key_is s d) (table db1) = filter (key_is s d) (table db).
Proof.
  intros Hl Hk. apply load_ok in Hl. subst db1.
  cbn [table hourly_weather]. rewrite upsert_all_key.
  destruct (last_with_key s d (staged real_to_text df)) as [w|] eqn:E;
    [|reflexivity].
  unfold last_with_key in E. apply find_some in E as [Hw Kw].
  apply in_rev in Hw. rewrite (Hk w Hw) in Kw. discriminate.
Qed.

(** A load neither drops nor changes a row that is in conflict with no row
    of the batch, keyed or not; such rows also keep their order. *)
Lemma load_keeps_untouched (df : DataFrame) (db db1 : database) :
  load real_to_text df db = Ok db1 ->
  exists added,
    table db1
    = filter (untouched (staged real_to_text df)) (table db) ++ added
    /\ forall w, In w added -> In w (staged real_to_text df).
Proof.
  intros Hl. apply load_ok in Hl. subst db1. cbn [table hourly_weather].
  exists (upsert_all (staged real_to_text df) []). split.
  - apply upsert_all_split.
  - intros w Hw. now apply in_upsert_all in Hw as [[] | Hw].
Qed.

(** ** The report *)

Lemma avg_fold (vs : list (option pyfloat)) (s : pyfloat) (n : nat) :
  fold_left avg_step vs (s, n) =
  (fold_left fadd (present vs) s, (n + List.length (present vs))%nat).
Proof.
  revert s n. induction vs as [|[f|] vs IH]; intros s n; cbn.
  - now rewrite Nat.add_0_r.
  - rewrite IH. cbn. now rewrite Nat.add_succ_r.
  - apply IH.
Qed.

(** [AVG] is the mean of the values that are present. *)
Lemma sql_avg_mean (vs : list (option pyfloat)) :
  sql_avg vs =
  match present vs with
  | [] => None
  | _ => if fis_nan (mean (present vs)) then None
         else Some (mean (present vs))
  end.
Proof.
  unfold sql_avg, mean, fsum. rewrite avg_fold. cbn [Nat.add].
  destruct (present vs); reflexivity.
Qed.

Lemma present_none (vs : list (option pyfloat)) :
  (forall v, In v vs -> v = None) -> present vs = [].
Proof.
  induction vs as [|v vs IH]; intros H; [reflexivity|].
  rewrite (H v (or_introl eq_refl)). cbn. apply IH.
  intros x Hx. apply H. now right.
Qed.



(** C10: for a store in which no row has a temperature, the call raises
    while formatting the average; the file holds the header line only. *)
Theorem generate_report_no_temperature (db : database)
    (t : list weather_row) :
  hourly_weather db = Some t ->
  (forall w, In w t -> temp_c w = None) ->
  generate_report to_markdown db =
  mkRun (Some report_header) (Raise TypeError).
Proof.
  intros Ht Hn. unfold generate_report. rewrite Ht, sql_avg_mean.
  rewrite present_none; [reflexivity|].
  intros v Hv. apply in_map_iff in Hv as (w & <- & Hw). now apply Hn.
Qed.

(** ** The rows per name *)

Lemma string_leb_trans (a b c : string) :
  String.leb a b = true -> String.leb b c = true -> String.leb a c = true.
Proof.
  unfold String.leb. intros Hab Hbc.
  destruct (String.compare a b) eqn:Eab; try discriminate;
    destruct (String.compare b c) eqn:Ebc; try discriminate.
  - apply String.compare_eq_iff in Eab. subst a. now rewrite Ebc.
  - apply String.compare_eq_iff in Eab. subst a. now rewrite Ebc.
  - apply String.compare_eq_iff in Ebc. subst c. now rewrite Eab.
  - apply String_as_OT.cmp_lt in Eab, Ebc.
    pose proof (String_as_OT.lt_trans _ _ _ Eab Ebc) as H.
    apply String_as_OT.cmp_lt in H. unfold String_as_OT.cmp in H.
    now rewrite H.
Qed.

Lemma name_eqb_eq (a b : option string) : name_eqb a b = true <-> a = b.
Proof.
  destruct a as [x|], b as [y|]; simpl; split; try discriminate;
    try reflexivity.
  - intros H. apply String.eqb_eq in H. now subst.
  - intros H. injection H as ->. apply String.eqb_refl.
Qed.

Lemma name_leb_trans (a b c : option string) :
  name_leb a b = true -> name_leb b c = true -> name_leb a c = true.
Proof.
  destruct a as [x|], b as [y|], c as [z|]; simpl; try discriminate;
    try reflexivity.
  apply string_leb_trans.
Qed.

Lemma name_leb_antisym (a b : option string) :
  name_leb a b = true -> name_leb b a = true -> a = b.
Proof.
  destruct a as [x|], b as [y|]; simpl; try discriminate;
    try reflexivity.
  intros H1 H2. f_equal. now apply String.leb_antisym.
Qed.

Lemma name_leb_total (a b : option string) :
  name_leb a b = true \/ name_leb b a = true.
Proof.
  destruct a as [x|], b as [y|]; simpl; auto. apply String.leb_total.
Qed.

Lemma count_in_after (n : option string) (g : list (option string * nat)) :
  all_after n g -> count_in n g = O.
Proof.
  unfold count_in. induction 1 as [|p g [_ Hp] _ IH]; [reflexivity|].
  cbn [find]. destruct (name_eqb n (fst p)) eqn:E; [|exact IH].
  apply name_eqb_eq in E. contradiction.
Qed.

Lemma all_after_weaken (m n : option string)
    (g : list (option string * nat)) :
  name_leb m n = true -> all_after n g -> all_after m g.
Proof.
  intros Hmn H. unfold all_after in *. rewrite Forall_forall in *.
  intros p Hp. destruct (H p Hp) as [H1 H2]. split.
  - now apply (name_leb_trans m n).
  - intros ->. apply H2. now apply name_leb_antisym.
Qed.

Lemma count_into_sorted (m : option string)
    (g : list (option string * nat)) :
  sorted_groups g -> sorted_groups (count_into m g).
Proof.
  induction g as [|[x k] g IH]; intros Hs; cbn [count_into].
  - cbn. split; [constructor | exact I].
  - destruct Hs as [Ha Hs]. cbn [fst] in Ha.
    destruct (name_eqb m x) eqn:E; [now split|].
    assert (Hne : m <> x)
      by (intros ->; rewrite (proj2 (name_eqb_eq x x) eq_refl) in E;
          discriminate).
    destruct (name_leb m x) eqn:L.
    + cbn [sorted_groups fst]. split; [|now split].
      constructor; [now split|]. now apply (all_after_weaken m x).
    + cbn [sorted_groups fst]. split; [|now apply IH].
      assert (Hxm : name_leb x m = true)
        by (destruct (name_leb_total m x); congruence).
      assert (Hxm' : name_leb x (fst (m, 1%nat)) = true
                     /\ x <> fst (m, 1%nat))
        by (split; [exact Hxm | intros Hx; now apply Hne]).
      clear IH Hs. induction Ha as [|[y j] g Hy Ha IHa];
        cbn [count_into].
      * constructor; [exact Hxm' | constructor].
      * destruct (name_eqb m y); [constructor; [exact Hy | exact Ha]|].
        destruct (name_leb m y).
        -- constructor; [exact Hxm'|]. constructor; [exact Hy | exact Ha].
        -- constructor; [exact Hy | exact IHa].
Qed.

Lemma count_in_count_into (n m : option string)
    (g : list (option string * nat)) :
  sorted_groups g ->
  count_in n (count_into m g) =
  ((if name_eqb n m then 1 else 0) + count_in n g)%nat.
Proof.
  induction g as [|[x k] g IH]; intros Hs; cbn [count_into].
  - unfold count_in. cbn [find fst snd].
    destruct (name_eqb n m); reflexivity.
  - destruct Hs as [Ha Hs]. cbn [fst] in Ha.
    destruct (name_eqb m x) eqn:E.
    + apply name_eqb_eq in E. subst x. unfold count_in. cbn [find fst snd].
      destruct (name_eqb n m); reflexivity.
    + destruct (name_leb m x) eqn:L.
      * assert (Hm : all_after m ((x, k) :: g)).
        { constructor; [|now apply (all_after_weaken m x)].
          split; [exact L|]. cbn [fst]. intros ->.
          rewrite (proj2 (name_eqb_eq x x) eq_refl) in E. discriminate. }
        unfold count_in at 1. cbn [find fst snd].
        destruct (name_eqb n m) eqn:G; [|reflexivity].
        apply name_eqb_eq in G. subst n.
        now rewrite (count_in_after m _ Hm).
      * unfold count_in in *. cbn [find fst snd].
        destruct (name_eqb n x) eqn:F; [|now apply IH].
        apply name_eqb_eq in F. subst x.
        destruct (name_eqb n m) eqn:G; [|reflexivity].
        apply name_eqb_eq in G. subst m.
        rewrite (proj2 (name_eqb_eq n n) eq_refl) in E. discriminate.
Qed.

Lemma group_count_fold (n : option string) (names : list (option string))
    (g : list (option string * nat)) :
  sorted_groups g ->
  sorted_groups (fold_left (fun g n => count_into n g) names g)
  /\ count_in n (fold_left (fun g n => count_into n g) names g)
     = (count_in n g + count_name n names)%nat.
Proof.
  revert g. induction names as [|m names IH]; intros g Hs; cbn [fold_left].
  - split; [exact Hs|]. unfold count_name. cbn. lia.
  - destruct (IH (count_into m g) (count_into_sorted m g Hs)) as [H1 H2].
    split; [exact H1|]. rewrite H2, count_in_count_into by exact Hs.
    unfold count_name. cbn [filter].
    destruct (name_eqb n m); cbn [List.length]; lia.
Qed.



End PipelineFacts.

(** * Instances of the theorems on concrete data *)

Local Open Scope string_scope.


Example transform_sample_chunk :
  transform iso_parse_datetime sample_chunk = Ok sample_batch.
Proof. reflexivity. Qed.

Example pipeline_step_sample_chunk :
  pipeline_step iso_parse_datetime plain_real_to_text empty_db sample_chunk
  = Ok sample_store.
Proof. reflexivity. Qed.

(** C4 on the sample chunk. *)
Lemma invalid_rows_dropped_witness :
  map (fun r => (field "STATION" sample_batch r, field "DATE" sample_batch r))
      (rows sample_batch)
  = map (fun p => (field "STATION" sample_chunk (fst p), snd p))
        (dated_rows iso_parse_datetime sample_chunk)
  /\ forall w, In w (table sample_store) ->
       In w (table empty_db)
       \/ exists p, In p (dated_rows iso_parse_datetime sample_chunk)
            /\ STATION w
               = key_text plain_real_to_text
                          (field "STATION" sample_chunk (fst p))
            /\ DATE w = key_text plain_real_to_text (snd p).
Proof.
  pose proof (invalid_rows_dropped iso_parse_datetime plain_real_to_text
                sample_chunk empty_db) as (Hkeys & _ & Hstore).
  split.
  - apply Hkeys. reflexivity.
  - apply (Hstore sample_store). reflexivity.
Defined.

(** C6: loading the sample batch into the store it produced. *)
Lemma load_idempotent_witness :
  load plain_real_to_text sample_batch sample_store = Ok sample_store.
Proof.
  apply (load_idempotent iso_parse_datetime plain_real_to_text
           sample_chunk sample_batch empty_db sample_store);
    reflexivity.
Defined.

(** C7: the new reading replaces the old one, and the key keeps a single
    row. *)
Lemma load_overwrites_witness :
  exists w,
    last_with_key "001" "2023-01-01 00:00:00"
                  (staged plain_real_to_text second_batch) = Some w
    /\ In w (staged plain_real_to_text second_batch)
    /\ filter (key_is "001" "2023-01-01 00:00:00") (table second_store) = [w].
Proof.
  apply (load_overwrites plain_real_to_text second_batch sample_store
           second_store "001" "2023-01-01 00:00:00" second_row).
  - reflexivity.
  - left. reflexivity.
  - reflexivity.
Defined.

(** C8: the row of station 7 is as it was. *)
Lemma load_frame_witness :
  filter (key_is "7" "2023-01-01 02:00:00") (table second_store)
  = filter (key_is "7" "2023-01-01 02:00:00") (table sample_store).
Proof.
  apply (load_frame plain_real_to_text second_batch sample_store second_store
           "7" "2023-01-01 02:00:00").
  - reflexivity.
  - intros r [<- | []]. reflexivity.
Defined.

(** C10 on a store of one row without temperature, and on the empty
    table. *)
Lemma generate_report_no_temperature_witness :
  generate_report plain_to_markdown untempered_store
  = mkRun (Some report_header) (Raise TypeError)
  /\ generate_report plain_to_markdown (mkDB (Some []) None)
     = mkRun (Some report_header) (Raise TypeError).
Proof.
  split.
  - apply (generate_report_no_temperature plain_to_markdown untempered_store
             (table untempered_store)); [reflexivity|].
    intros w [<- | []]. reflexivity.
  - apply (generate_report_no_temperature plain_to_markdown
             (mkDB (Some []) None) []); [reflexivity|].
    intros w [].
Defined.

(** ** The examples of the specification *)

(** A full row: [(001, "2023-01-01 00:00:00", A, 15.0, 5.0, 59.0)]. *)
Example pipeline_stores_row :
  pipeline_step iso_parse_datetime plain_real_to_text empty_db
    (mkDF ["STATION"; "DATE"; "NAME"; "TMP"; "DEW"]%string
          [[PyStr "001"; PyStr "2023-01-01T00:00:00"; PyStr "A";
            PyStr "+0150,5"; PyStr "+0050,5"]])
  = Ok (mkDB (Some [mkRow (Some "001") (Some "2023-01-01 00:00:00")
                          (Some "A") (Some (Fin 15)) (Some (Fin 5))
                          (Some (Fin 59))]%string)
             None).
Proof. reflexivity. Qed.

(** [TMP = "9999,9"]: the row is stored, without [temp_c] and [temp_f]. *)
Example pipeline_stores_missing_reading :
  pipeline_step iso_parse_datetime plain_real_to_text empty_db
    (mkDF ["STATION"; "DATE"; "NAME"; "TMP"; "DEW"]%string
          [[PyStr "001"; PyStr "2023-01-01T00:00:00"; PyStr "A";
            PyStr "9999,9"; PyStr "+0050,5"]])
  = Ok untempered_store.
Proof. reflexivity. Qed.

(** A row whose STATION is empty (read as NaN) is not stored. *)
Example pipeline_drops_row_without_station :
  pipeline_step iso_parse_datetime plain_real_to_text empty_db
    (mkDF ["STATION"; "DATE"; "NAME"; "TMP"; "DEW"]%string
          [[PyFloat NaN; PyStr "2023-01-01T00:00:00"; PyStr "A";
            PyStr "+0150,5"; PyStr "+0050,5"]])
  = Ok (mkDB (Some []) None).
Proof. reflexivity. Qed.



(** A chunk without the NAME column passes [transform], and [load] then
    fails on the five-column batch. *)
Example pipeline_without_name :
  pipeline_step iso_parse_datetime plain_real_to_text empty_db
    (mkDF ["STATION"; "DATE"; "TMP"; "DEW"]%string
          [[PyStr "001"; PyStr "2023-01-01T00:00:00"; PyStr "+0150,5";
            PyStr "+0050,5"]])
  = Raise OperationalError.
Proof. reflexivity. Qed.

(** * Further properties of the code *)

(** ** [parse_noaa_val] *)

Lemma before_comma_idempotent (s : string) :
  before_comma (before_comma s) = before_comma s.
Proof.
  induction s as [|c s IH]; simpl; [reflexivity|].
  destruct (Ascii.eqb c comma) eqn:E; simpl; [reflexivity|].
  now rewrite E, IH.
Qed.

(** X1: whatever follows the first comma, the quality code included, has no
    effect on the parsed value: a text parses as its part before the first
    comma does. *)
Theorem parse_noaa_val_before_comma (s : string) :
  parse_noaa_val (PyStr s) = parse_noaa_val (PyStr (before_comma s)).
Proof.
  rewrite !parse_noaa_val_str. now rewrite before_comma_idempotent.
Qed.

Section MoreFacts.

Variable parse_datetime : Series -> nat -> option Timestamp.
Variable real_to_text : pyfloat -> string.
Variable to_markdown : list (option string * nat) -> string.

(** ** The columns [transform] needs *)



(** ** The shape of the cleaned batch *)

Lemma length_clean_rows (chunk : DataFrame) (with_name : bool) :
  List.length (clean_rows parse_datetime chunk with_name)
  = List.length (dated_rows parse_datetime chunk).
Proof.
  pose proof (f_equal (@List.length _)
                (clean_rows_keys parse_datetime chunk with_name)) as H.
  now rewrite !length_map in H.
Qed.

Lemma length_filter_le {A : Type} (p : A -> bool) (l : list A) :
  (List.length (filter p l) <= List.length l)%nat.
Proof.
  induction l as [|x l IH]; simpl; [lia|]. destruct (p x); simpl; lia.
Qed.

(** X4: the batch [transform] returns has the columns STATION, DATE, NAME
    (when the chunk has it), temp_c, dew_point_c and temp_f, in this order;
    the raw TMP and DEW are gone, and every row has one cell per column. *)
Theorem transform_shape (chunk out : DataFrame) :
  transform parse_datetime chunk = Ok out ->
  columns out
  = (["STATION"; "DATE"]
     ++ (if has_column "NAME" chunk then ["NAME"] else [])
     ++ ["temp_c"; "dew_point_c"; "temp_f"])%list
  /\ forall r, In r (rows out) -> List.length r = List.length (columns out).
Proof.
  intros H. apply transform_ok in H as [_ ->]. cbn [columns rows]. split.
  - destruct (has_column "NAME" chunk); reflexivity.
  - intros r Hr. unfold clean_rows in Hr.
    apply in_map_iff in Hr as (q & <- & _).
    destruct (has_column "NAME" chunk); reflexivity.
Qed.

(** X5: [transform] never returns more rows than the chunk has. *)
Theorem transform_row_count (chunk out : DataFrame) :
  transform parse_datetime chunk = Ok out ->
  (List.length (rows out) <= List.length (rows chunk))%nat.
Proof.
  intros H. apply transform_ok in H as [_ ->]. cbn [rows].
  rewrite length_clean_rows. unfold dated_rows.
  eapply Nat.le_trans; [apply length_filter_le|].
  rewrite length_combine. unfold keyed_rows.
  eapply Nat.le_trans; [apply Nat.le_min_l | apply length_filter_le].
Qed.

(** ** The cleaned batch, one input row at a time *)

Lemma maybe_convert_objects_map (s : Series) :
  exists h, converter h /\ maybe_convert_objects s = map h s.
Proof.
  destruct (maybe_convert_objects_cases s) as [E | E].
  - exists (fun v => v). split; [now left | now rewrite map_id].
  - exists None_to_nan. split; [now right | exact E].
Qed.

Lemma combine_map_three {A B C D : Type} (f1 : A -> B) (f2 : A -> C)
    (f3 : A -> D) (l : list A) :
  combine (combine (combine l (map f1 l)) (map f2 l)) (map f3 l)
  = map (fun p => (p, f1 p, f2 p, f3 p)) l.
Proof. induction l as [|x l IH]; simpl; [reflexivity | now rewrite IH]. Qed.

(** Each row of the cleaned batch is made from one dated row, with the
    parsed TMP and DEW and the Fahrenheit value, each passed through the
    conversion of its column. *)
Lemma clean_rows_map (chunk : DataFrame) (with_name : bool) :
  exists h1 h2 h3,
    converter h1 /\ converter h2 /\ converter h3
    /\ clean_rows parse_datetime chunk with_name
       = map (fun p =>
                let tc :=
                  h1 (value_of (parse_noaa_val (field "TMP" chunk (fst p))))
                in
                field "STATION" chunk (fst p) :: snd p
                :: (if with_name then [field "NAME" chunk (fst p)] else [])
                ++ [tc;
                    h2 (value_of
                          (parse_noaa_val (field "DEW" chunk (fst p))));
                    h3 (value_of (fahrenheit tc))])%list
             (dated_rows parse_datetime chunk).
Proof.
  unfold clean_rows, temp_f_column, dew_point_c_column.
  unfold temp_c_column.
  destruct (maybe_convert_objects_map
              (map (fun p => value_of (parse_noaa_val
                                         (field "TMP" chunk (fst p))))
                   (dated_rows parse_datetime chunk))) as (h1 & C1 & ->).
  destruct (maybe_convert_objects_map
              (map (fun p => value_of (parse_noaa_val
                                         (field "DEW" chunk (fst p))))
                   (dated_rows parse_datetime chunk))) as (h2 & C2 & ->).
  rewrite !map_map.
  destruct (maybe_convert_objects_map
              (map (fun p => value_of
                               (fahrenheit
                                  (h1 (value_of
                                         (parse_noaa_val
                                            (field "TMP" chunk (fst p)))))))
                   (dated_rows parse_datetime chunk))) as (h3 & C3 & ->).
  rewrite map_map.
  exists h1, h2, h3. repeat (split; [assumption|]).
  rewrite combine_map_three, map_map. reflexivity.
Qed.

Lemma None_to_nan_converter (h : pyval -> pyval) (v : pyval) :
  converter h -> None_to_nan (h v) = None_to_nan v.
Proof. intros [H | H]; rewrite H; [reflexivity | now destruct v]. Qed.

(** X6: the temp_c and dew_point_c of an output row are the parsed TMP and
    DEW of the input row it comes from; only a missing reading may be held
    as NaN instead of None. *)
Theorem transform_parsed_columns (chunk out : DataFrame) :
  transform parse_datetime chunk = Ok out ->
  map (fun r => (None_to_nan (field "temp_c" out r),
                 None_to_nan (field "dew_point_c" out r)))
      (rows out)
  = map (fun p =>
           (None_to_nan (value_of (parse_noaa_val
                                     (field "TMP" chunk (fst p)))),
            None_to_nan (value_of (parse_noaa_val
                                     (field "DEW" chunk (fst p))))))
        (dated_rows parse_datetime chunk).
Proof.
  intros H. apply transform_ok in H as [_ ->]. cbn [rows].
  destruct (clean_rows_map chunk (has_column "NAME" chunk))
    as (h1 & h2 & h3 & C1 & C2 & C3 & ->).
  rewrite map_map. apply map_ext. intros p.
  destruct (has_column "NAME" chunk); cbv zeta;
    cbn [field columns clean_columns index_of String.eqb Ascii.eqb
         Bool.eqb option_map app cell nth];
    now rewrite !None_to_nan_converter.
Qed.

(** X7: the NAME of an output row is the NAME of the input row it comes
    from, unchanged, a missing name included. *)
Theorem transform_keeps_name (chunk out : DataFrame) :
  has_column "NAME" chunk = true ->
  transform parse_datetime chunk = Ok out ->
  map (field "NAME" out) (rows out)
  = map (fun p => field "NAME" chunk (fst p))
        (dated_rows parse_datetime chunk).
Proof.
  intros Hn H. apply transform_ok in H as [_ ->]. rewrite Hn. cbn [rows].
  destruct (clean_rows_map chunk true)
    as (h1 & h2 & h3 & C1 & C2 & C3 & ->).
  rewrite map_map. apply map_ext. intros p. reflexivity.
Qed.

(** ** What [transform] reads of a chunk *)

Lemma map_filter_pick {A B : Type} (p : A -> bool) (f : A -> B)
    (l : list A) :
  map f (filter p l) = pick (map p l) (map f l).
Proof.
  unfold pick. induction l as [|x l IH]; simpl; [reflexivity|].
  destruct (p x); simpl; now rewrite IH.
Qed.

(** X8: [transform] reads a chunk through the five labels only: two chunks
    that have the same ones of the five columns and, row by row, the same
    cells under them are transformed alike, whatever their other columns and
    the order of their columns. *)
Theorem transform_reads_five_columns (chunk1 chunk2 : DataFrame) :
  map (fun c => has_column c chunk1) relevant_labels
  = map (fun c => has_column c chunk2) relevant_labels ->
  map (relevant_cells chunk1) (rows chunk1)
  = map (relevant_cells chunk2) (rows chunk2) ->
  transform parse_datetime chunk1 = transform parse_datetime chunk2.
Proof.
  intros Hc Hr. unfold transform. rewrite !select_columns_present.
  change ["STATION"; "DATE"; "NAME"; "TMP"; "DEW"] with relevant_labels.
  assert (Hf : filter (fun c => has_column c chunk1) relevant_labels
               = filter (fun c => has_column c chunk2) relevant_labels).
  { rewrite <- (map_id (filter _ relevant_labels)).
    rewrite <- (map_id (filter (fun c => has_column c chunk2) _)).
    rewrite !map_filter_pick. now rewrite Hc. }
  assert (Hrows :
    map (fun r => map (fun c => field c chunk1 r)
                      (filter (fun c => has_column c chunk1) relevant_labels))
        (rows chunk1)
    = map (fun r => map (fun c => field c chunk2 r)
                        (filter (fun c => has_column c chunk2)
                                relevant_labels))
          (rows chunk2)).
  { erewrite map_ext by (intros r; apply map_filter_pick).
    symmetry. erewrite map_ext by (intros r; apply map_filter_pick).
    symmetry. rewrite <- Hc.
    change (fun r => pick (map (fun c => has_column c chunk1) relevant_labels)
                          (map (fun c => field c chunk1 r) relevant_labels))
      with (fun r => pick (map (fun c => has_column c chunk1) relevant_labels)
                          (relevant_cells chunk1 r)).
    change (fun r => pick (map (fun c => has_column c chunk1) relevant_labels)
                          (map (fun c => field c chunk2 r) relevant_labels))
      with (fun r => pick (map (fun c => has_column c chunk1) relevant_labels)
                          (relevant_cells chunk2 r)).
    rewrite <- (map_map (relevant_cells chunk1)
                  (pick (map (fun c => has_column c chunk1) relevant_labels))).
    rewrite <- (map_map (relevant_cells chunk2)
                  (pick (map (fun c => has_column c chunk1) relevant_labels))).
    now rewrite Hr. }
  now rewrite Hrows, Hf.
Qed.

(** ** One pipeline step *)

(** What a pipeline step does on any chunk and any store. *)
Lemma pipeline_step_spec (db : database) (chunk : DataFrame) :
  pipeline_step parse_datetime real_to_text db chunk =
  if required_columns chunk then
    if has_column "NAME" chunk then
      Ok (mkDB (Some (upsert_all (batch_rows parse_datetime real_to_text chunk)
                                 (table db)))
               None)
    else Raise OperationalError
  else Raise (transform_error chunk).
Proof.
  unfold pipeline_step. rewrite transform_spec.
  destruct (required_columns chunk); [|reflexivity]. cbn [bind].
  rewrite load_spec. cbn [columns].
  destruct (has_column "NAME" chunk); reflexivity.
Qed.


(** ** [load] *)

(** X10: [load] invents no row: every row of the table after a load was
    there before or is a row of the batch. *)
Theorem load_rows_from (df : DataFrame) (db db1 : database)
    (w : weather_row) :
  load real_to_text df db = Ok db1 ->
  In w (table db1) ->
  In w (table db) \/ In w (staged real_to_text df).
Proof.
  intros Hl Hw. apply load_ok in Hl. subst db1.
  cbn [table hourly_weather] in Hw. now apply in_upsert_all in Hw.
Qed.

(** X11: [load] keeps the PRIMARY KEY constraint: when no key is held by
    two rows before the load, none is afterwards. *)
Theorem load_keeps_keys_unique (df : DataFrame) (db db1 : database) :
  load real_to_text df db = Ok db1 ->
  unique_keys (table db) -> unique_keys (table db1).
Proof.
  intros Hl Hu s d. apply load_ok in Hl. subst db1.
  cbn [table hourly_weather]. rewrite upsert_all_key.
  destruct (last_with_key s d (staged real_to_text df)); [cbn; lia|].
  apply Hu.
Qed.

Lemma upsert_all_keyless (rs t : list weather_row) :
  (forall r, In r rs -> same_key r r = false) ->
  upsert_all rs t = (t ++ rs)%list.
Proof.
  revert t. induction rs as [|a rs IH]; intros t H.
  - cbn. now rewrite app_nil_r.
  - change (upsert_all (a :: rs) t)
      with (upsert_all rs (insert_or_replace t a)).
    rewrite IH by (intros r Hr; apply H; now right).
    unfold insert_or_replace.
    rewrite (filter_ext _ (fun _ => true)).
    + rewrite <- app_assoc. f_equal.
      induction t as [|x t IHt]; simpl; congruence.
    + intros x. destruct (same_key x a) eqn:Sk; [|reflexivity].
      apply same_key_true in Sk as (E1 & E2 & N1 & N2).
      assert (Ka : same_key a a = true).
      { unfold same_key. rewrite <- E1, <- E2.
        now rewrite !text_eq_refl. }
      rewrite (H a (or_introl eq_refl)) in Ka. discriminate.
Qed.

(** X12: the upsert rests on the key: batch rows whose STATION or DATE is
    NULL are in conflict with nothing, so a load appends them all, and
    appends them again when the batch is loaded again. *)
Theorem load_appends_keyless (df : DataFrame) (db db1 : database) :
  load real_to_text df db = Ok db1 ->
  (forall r, In r (staged real_to_text df) -> same_key r r = false) ->
  table db1 = (table db ++ staged real_to_text df)%list
  /\ exists db2,
       load real_to_text df db1 = Ok db2
       /\ table db2
          = (table db ++ staged real_to_text df
             ++ staged real_to_text df)%list.
Proof.
  intros Hl Hk. pose proof (load_ok _ _ _ _ Hl) as ->.
  rewrite load_spec in *.
  destruct (List.length (columns df) =? 6)%nat; [|discriminate].
  cbn [table hourly_weather]. rewrite upsert_all_keyless by exact Hk.
  split; [reflexivity|]. eexists. split; [reflexivity|].
  cbn [table hourly_weather]. rewrite upsert_all_keyless by exact Hk.
  now rewrite <- app_assoc.
Qed.

Lemma last_with_key_some (s d : string) (rs : list weather_row)
    (w : weather_row) :
  last_with_key s d rs = Some w -> In w rs /\ key_is s d w = true.
Proof.
  unfold last_with_key. intros H. apply find_some in H as [H K].
  split; [now apply in_rev | exact K].
Qed.

(** X13: two batches that share no key can be loaded in either order: under
    every key the store ends with the same rows. *)
Theorem load_commutes (a b : DataFrame) (db da dab db' dba : database) :
  load real_to_text a db = Ok da -> load real_to_text b da = Ok dab ->
  load real_to_text b db = Ok db' -> load real_to_text a db' = Ok dba ->
  (forall s d ra rb,
     In ra (staged real_to_text a) -> In rb (staged real_to_text b) ->
     key_is s d ra = true -> key_is s d rb = false) ->
  forall s d,
    filter (key_is s d) (table dab) = filter (key_is s d) (table dba).
Proof.
  intros H1 H2 H3 H4 Hdis s d.
  apply load_ok in H1, H3. subst da db'.
  apply load_ok in H2, H4. subst dab dba.
  cbn [table hourly_weather]. rewrite !upsert_all_key.
  destruct (last_with_key s d (staged real_to_text a)) as [wa|] eqn:Ea,
    (last_with_key s d (staged real_to_text b)) as [wb|] eqn:Eb;
    try reflexivity.
  apply last_with_key_some in Ea as [Ia Ka], Eb as [Ib Kb].
  rewrite (Hdis s d wa wb Ia Ib Ka) in Kb. discriminate.
Qed.

(** ** A whole run *)

Lemma upsert_all_concat (a b t : list weather_row) :
  upsert_all b (upsert_all a t) = upsert_all (a ++ b)%list t.
Proof. unfold upsert_all. now rewrite fold_left_app. Qed.

(** A run over chunks that all have the five columns upserts their rows in
    order. *)
Lemma run_chunks_loadable (chunks : list DataFrame) (db : database) :
  chunks <> [] -> forallb loadable chunks = true ->
  run_chunks parse_datetime real_to_text chunks db =
  Ok (mkDB (Some (upsert_all
                    (flat_map (batch_rows parse_datetime real_to_text) chunks)
                    (table db)))
           None).
Proof.
  revert db. induction chunks as [|c rest IH]; intros db Hne Hl;
    [contradiction|].
  cbn [forallb] in Hl. apply andb_prop in Hl as [Hc Hrest].
  unfold loadable in Hc. apply andb_prop in Hc as [Hreq Hname].
  cbn [run_chunks flat_map]. rewrite pipeline_step_spec, Hreq, Hname.
  cbn [bind]. destruct rest as [|c' rest'].
  - cbn [run_chunks flat_map]. now rewrite app_nil_r.
  - rewrite IH by (discriminate || assumption).
    cbn [table hourly_weather]. now rewrite upsert_all_concat.
Qed.

Lemma run_chunks_ok (chunks : list DataFrame) (db db1 : database) :
  run_chunks parse_datetime real_to_text chunks db = Ok db1 ->
  forallb loadable chunks = true.
Proof.
  revert db. induction chunks as [|c rest IH]; intros db H; [reflexivity|].
  cbn [run_chunks] in H. rewrite pipeline_step_spec in H.
  cbn [forallb]. unfold loadable at 1.
  destruct (required_columns c); [|discriminate].
  destruct (has_column "NAME" c); [|discriminate].
  cbn [bind andb] in *. now apply IH in H.
Qed.

(** X14: a run can be started over: running the same chunks again on the
    store the run produced leaves the store exactly as it is. *)
Theorem run_chunks_again (chunks : list DataFrame) (db db1 : database) :
  run_chunks parse_datetime real_to_text chunks db = Ok db1 ->
  run_chunks parse_datetime real_to_text chunks db1 = Ok db1.
Proof.
  intros H. destruct chunks as [|c rest].
  - cbn in *. reflexivity.
  - pose proof (run_chunks_ok _ _ _ H) as Hl.
    assert (Hne : c :: rest <> []) by discriminate.
    remember (c :: rest) as cs eqn:Ecs. clear Ecs.
    rewrite run_chunks_loadable in H by assumption.
    injection H as <-.
    rewrite run_chunks_loadable by assumption.
    cbn [table hourly_weather]. do 3 f_equal.
    apply upsert_all_twice. intros r Hr.
    apply in_flat_map in Hr as (x & _ & Hr).
    now apply staged_clean_row_keyed in Hr.
Qed.


(** ** The size of the chunks *)






Section ValueByValue.

(** [pd.to_datetime] reading each value on its own. *)
Variable parse_one : pyval -> option Timestamp.
Hypothesis value_by_value :
  forall s i, parse_datetime s i = parse_one (cell i s).





End ValueByValue.

(** ** The report *)

Lemma in_count_into (n m : option string) (g : list (option string * nat)) :
  In n (map fst (count_into m g)) <-> n = m \/ In n (map fst g).
Proof.
  induction g as [|[x k] g IH]; cbn [count_into map fst In].
  - intuition.
  - destruct (name_eqb m x) eqn:E.
    + apply name_eqb_eq in E. subst x. cbn [map fst In]. intuition.
    + destruct (name_leb m x); cbn [map fst In]; [intuition|].
      rewrite IH. intuition.
Qed.

Lemma sorted_groups_nodup (g : list (option string * nat)) :
  sorted_groups g -> NoDup (map fst g).
Proof.
  induction g as [|p g IH]; cbn [sorted_groups map]; [constructor|].
  intros [Ha Hs]. constructor; [|now apply IH].
  intros Hin. apply in_map_iff in Hin as (q & E & Hq).
  unfold all_after in Ha. rewrite Forall_forall in Ha.
  destruct (Ha q Hq) as [_ Hne]. congruence.
Qed.

(** X16: the station table lists exactly the names that occur in the store,
    NULL as one more name, each of them once. *)
Theorem group_count_names (names : list (option string)) :
  NoDup (map fst (group_count names))
  /\ forall n, In n (map fst (group_count names)) <-> In n names.
Proof.
  split.
  - apply sorted_groups_nodup.
    now destruct (group_count_fold None names [] I) as [H _].
  - unfold group_count.
    assert (H : forall g n,
              In n (map fst (fold_left (fun g n => count_into n g) names g))
              <-> In n (map fst g) \/ In n names).
    { induction names as [|m names IH]; intros g n; cbn [fold_left In].
      - intuition.
      - rewrite IH, in_count_into. intuition. }
    intros n. rewrite H. cbn. intuition.
Qed.

Lemma total_count_into (m : option string)
    (g : list (option string * nat)) :
  total_count (count_into m g) = S (total_count g).
Proof.
  induction g as [|[x k] g IH]; cbn [count_into total_count fold_right snd];
    [reflexivity|].
  destruct (name_eqb m x); [reflexivity|].
  destruct (name_leb m x); cbn [fold_right snd]; [reflexivity|].
  fold (total_count (count_into m g)). rewrite IH.
  fold (total_count g). lia.
Qed.

(** X17: the counts of the station table add up to the number of rows, the
    total the aggregate line reports. *)
Theorem group_count_total (names : list (option string)) :
  total_count (group_count names) = List.length names.
Proof.
  unfold group_count.
  assert (H : forall g,
            total_count (fold_left (fun g n => count_into n g) names g)
            = (total_count g + List.length names)%nat).
  { induction names as [|m names IH]; intros g; cbn [fold_left List.length].
    - lia.
    - rewrite IH, total_count_into. lia. }
  now rewrite H.
Qed.





End MoreFacts.

(** ** Instances of the further properties *)


(** X4 on the sample chunk. *)
Lemma transform_shape_witness :
  columns sample_batch
  = ["STATION"; "DATE"; "NAME"; "temp_c"; "dew_point_c"; "temp_f"]
  /\ forall r, In r (rows sample_batch) ->
       List.length r = List.length (columns sample_batch).
Proof.
  apply (transform_shape iso_parse_datetime sample_chunk sample_batch).
  reflexivity.
Defined.

(** X5 on the sample chunk: three rows out of five. *)
Lemma transform_row_count_witness :
  (List.length (rows sample_batch) <= List.length (rows sample_chunk))%nat.
Proof.
  apply (transform_row_count iso_parse_datetime sample_chunk sample_batch).
  reflexivity.
Defined.

(** X6 on the sample chunk. *)
Lemma transform_parsed_columns_witness :
  map (fun r => (None_to_nan (field "temp_c" sample_batch r),
                 None_to_nan (field "dew_point_c" sample_batch r)))
      (rows sample_batch)
  = [(PyFloat (Fin 15), PyFloat (Fin 5));
     (PyFloat NaN, PyFloat (Fin 5));
     (PyFloat (Fin 25), PyFloat NaN)].
Proof.
  rewrite (transform_parsed_columns iso_parse_datetime sample_chunk
             sample_batch eq_refl).
  reflexivity.
Defined.

(** X7 on the sample chunk. *)
Lemma transform_keeps_name_witness :
  map (field "NAME" sample_batch) (rows sample_batch)
  = [PyStr "A"; PyStr "A"; PyStr "B"].
Proof.
  rewrite (transform_keeps_name iso_parse_datetime sample_chunk sample_batch
             eq_refl eq_refl).
  reflexivity.
Defined.

(** X8: the sample rows under other columns, in another order. *)
Lemma transform_reads_five_columns_witness :
  transform iso_parse_datetime shuffled_chunk
  = transform iso_parse_datetime sample_chunk.
Proof.
  apply (transform_reads_five_columns iso_parse_datetime shuffled_chunk
           sample_chunk); reflexivity.
Defined.


(** X10: the rows of [second_store] are rows of [sample_store] or the row
    of [second_batch]. *)
Lemma load_rows_from_witness :
  In second_row (table sample_store)
  \/ In second_row (staged plain_real_to_text second_batch).
Proof.
  apply (load_rows_from plain_real_to_text second_batch sample_store
           second_store second_row).
  - reflexivity.
  - right. right. left. reflexivity.
Defined.

(** X11 on the first load into an empty database. *)
Lemma load_keeps_keys_unique_witness : unique_keys (table sample_store).
Proof.
  apply (load_keeps_keys_unique plain_real_to_text sample_batch empty_db
           sample_store).
  - reflexivity.
  - intros s d. cbn. lia.
Defined.

(** X12: a row without station, loaded twice, is stored twice. *)
Lemma load_appends_keyless_witness :
  exists db1,
    load plain_real_to_text keyless_batch empty_db = Ok db1
    /\ table db1 = [keyless_row]
    /\ exists db2,
         load plain_real_to_text keyless_batch db1 = Ok db2
         /\ table db2 = [keyless_row; keyless_row].
Proof.
  exists (mkDB (Some [keyless_row]) None).
  split; [reflexivity|].
  apply (load_appends_keyless plain_real_to_text keyless_batch empty_db
           (mkDB (Some [keyless_row]) None)).
  - reflexivity.
  - intros r [<- | []]. reflexivity.
Defined.

(** X13: [second_batch] and [third_batch], in both orders, under the key of
    the latter. *)
Lemma load_commutes_witness :
  filter (key_is "002" "2023-01-01 00:00:00")
         (upsert_all (staged plain_real_to_text third_batch)
                     (table second_store))
  = filter (key_is "002" "2023-01-01 00:00:00")
           (upsert_all (staged plain_real_to_text second_batch)
              (upsert_all (staged plain_real_to_text third_batch)
                          (table sample_store))).
Proof.
  apply (load_commutes plain_real_to_text second_batch third_batch
           sample_store second_store
           (mkDB (Some (upsert_all (staged plain_real_to_text third_batch)
                                   (table second_store))) None)
           (mkDB (Some (upsert_all (staged plain_real_to_text third_batch)
                                   (table sample_store))) None)
           (mkDB (Some (upsert_all (staged plain_real_to_text second_batch)
                          (upsert_all (staged plain_real_to_text third_batch)
                                      (table sample_store)))) None));
    try reflexivity.
  intros s d ra rb [<- | []] [<- | []] K.
  apply key_is_true in K as [K _]. cbn in K. injection K as <-.
  reflexivity.
Defined.

(** X14: the sample chunk, run twice. *)
Lemma run_chunks_again_witness :
  run_chunks iso_parse_datetime plain_real_to_text [sample_chunk] sample_store
  = Ok sample_store.
Proof.
  apply (run_chunks_again iso_parse_datetime plain_real_to_text
           [sample_chunk] empty_db sample_store).
  reflexivity.
Defined.


